(** * blueapi: the controller's command line and the worker-side bridge

    A shallow embedding of [src/blueapi/cli/cli.py] and
    [src/blueapi/service/app.py].  Python statements become functions in a
    small monad that threads the state of one invocation, records every call
    that is visible from outside (REST requests, bus operations, printing and
    logging) and carries Python's three ways of leaving a block: running to its
    end, [return], and a raised exception.  A fourth outcome stands for a call
    that never comes back. *)

From Stdlib Require Import String Ascii List Bool Arith NArith Lia.
From Stdlib Require Import DecimalString DecimalNat.
From Stdlib Require Finite.
Import ListNotations.
Local Open Scope string_scope.
Local Open Scope list_scope.
#[local] Set Warnings "-register-all".

(** ** Python values shared by both programs *)

(** The exception classes the code names, each with the text [str(e)] gives.
    [OtherError] stands for any class the code never mentions. *)
Inductive exn : Type :=
| ValidationError (msg : string)
| BlueskyRemoteError (msg : string)
| ValueError (msg : string)
| JSONDecodeError (msg : string)
| ConnectionError (msg : string)
| FileNotFoundError (msg : string)
| RuntimeError (msg : string)
| IndexError (msg : string)
| AssertionError
| OtherError (cls msg : string).

(** [isinstance(e, ValueError)]: pydantic's [ValidationError] and
    [json.JSONDecodeError] both derive from [ValueError]. *)
Definition isinstance_ValueError (e : exn) : bool :=
  match e with
  | ValueError _ | ValidationError _ | JSONDecodeError _ => true
  | _ => false
  end.

(** [isinstance(e, requests.exceptions.ConnectionError)]. *)
Definition isinstance_ConnectionError (e : exn) : bool :=
  match e with
  | ConnectionError _ => true
  | _ => false
  end.

(** [f"{e}"]. *)
Definition str_exn (e : exn) : string :=
  match e with
  | ValidationError m | BlueskyRemoteError m | ValueError m
  | JSONDecodeError m | ConnectionError m | FileNotFoundError m
  | RuntimeError m | IndexError m | OtherError _ m => m
  | AssertionError => ""
  end.

(** What [json.loads] and the [dict()] of a response model produce.  A number
    keeps the text of its literal. *)
Inductive json : Type :=
| JNull
| JBool (b : bool)
| JNum (literal : string)
| JStr (s : string)
| JArr (items : list json)
| JObj (members : list (string * json)).

(** The newline of ["...: \n"]. *)
Definition nl : string := String (ascii_of_nat 10) EmptyString.

(** ** How a block of statements ends *)

Inductive outcome (A : Type) : Type :=
| Normal (a : A)
| Returned
| Raised (e : exn)
| Blocked.

Arguments Normal {A} a.
Arguments Returned {A}.
Arguments Raised {A} e.
Arguments Blocked {A}.

(** A statement: from the state before it to the state after it and the way
    it ended. *)
Definition Py (S A : Type) : Type := S -> S * outcome A.

Definition ret {S A} (a : A) : Py S A := fun s => (s, Normal a).

Definition bind {S A B} (c : Py S A) (k : A -> Py S B) : Py S B :=
  fun s =>
    match c s with
    | (s', Normal a) => k a s'
    | (s', Returned) => (s', Returned)
    | (s', Raised e) => (s', Raised e)
    | (s', Blocked) => (s', Blocked)
    end.

Definition py_return {S A} : Py S A := fun s => (s, Returned).

Definition raise {S A} (e : exn) : Py S A := fun s => (s, Raised e).

(** The result of an external call, given by the environment. *)
Definition lift {S A} (r : exn + A) : Py S A :=
  match r with
  | inl e => raise e
  | inr a => ret a
  end.

(** [try: body / except ...: handler]: the handler sees the exception and
    decides itself (by re-raising) which classes it lets through. *)
Definition try_except {S A} (body : Py S A) (handler : exn -> Py S A) : Py S A :=
  fun s =>
    match body s with
    | (s', Raised e) => handler e s'
    | r => r
    end.

(** A call of a function whose body is [body] and which returns [None]:
    [return] ends at the call. *)
Definition call {S} (body : Py S unit) : Py S unit :=
  fun s =>
    match body s with
    | (s', Returned) => (s', Normal tt)
    | r => r
    end.

Declare Scope py_scope.
Delimit Scope py_scope with py.
Notation "x <- c ;; k" := (bind c (fun x => k))
  (at level 61, c at next level, right associativity) : py_scope.
Notation "c ;;; k" := (bind c (fun _ => k))
  (at level 61, right associativity) : py_scope.

(** [with manager: body]: [enter] first; when it succeeds the body runs and
    [leave] runs after it on every way out of the body (its end, a [return],
    an exception); the body's outcome is kept. *)
Definition with_ {S A} (enter leave : Py S unit) (body : Py S A) : Py S A :=
  fun s =>
    match enter s with
    | (s1, Normal _) =>
        match body s1 with
        | (s2, Blocked) => (s2, Blocked)
        | (s2, r) =>
            match leave s2 with
            | (s3, Normal _) => (s3, r)
            | (s3, Returned) => (s3, r)
            | (s3, Raised e) => (s3, Raised e)
            | (s3, Blocked) => (s3, Blocked)
            end
        end
    | (s1, Returned) => (s1, Returned)
    | (s1, Raised e) => (s1, Raised e)
    | (s1, Blocked) => (s1, Blocked)
    end.

(** [x or default] on an optional string: [None] and [""] are falsy. *)
Definition py_or (x : option string) (default : string) : string :=
  match x with
  | Some EmptyString => default
  | Some s => s
  | None => default
  end.

(** * The controller: [src/blueapi/cli/cli.py] *)

Module Cli.

(** ** The worker's events *)

(** Modelled from the spec: [WorkerState] (declared in [blueapi.worker], not
    under src/).  The spec enumerates IDLE, RUNNING, PAUSED, ABORTING and
    STOPPING and leaves the rest open. *)
Inductive WorkerState : Type :=
| IDLE
| RUNNING
| PAUSED
| ABORTING
| STOPPING
| OTHER_STATE (name : string).

(** Modelled from the spec: [WorkerEvent] (declared in [blueapi.worker]): a
    state, the ordered errors and warnings, and a reference to the task the
    event belongs to. *)
Record WorkerEvent : Type := {
  state : WorkerState;
  errors : list string;
  warnings : list string;
  task_ref : option string
}.

(** Modelled from the spec: [Task] (declared in [blueapi.worker]): the name
    of an operation and a mapping from strings to values. *)
Record Task : Type := {
  task_name : string;
  task_params : list (string * json)
}.

(** What the code takes from libraries and from modules that are not under
    src/: the float type of [--timeout] and its [str], [json.loads] and
    [json.dumps(_, indent=2)], the constructor of the pydantic model [Task]
    (which validates), the subset of terminal worker states behind
    [WorkerEvent.is_complete], [WorkerEvent.dict], and the path
    [DOCS_SCHEMA_LOCATION] of [blueapi.service.openapi]. *)
Class Lib : Type := {
  float : Type;
  str_float : float -> string;
  json_loads : string -> exn + json;
  json_dumps : json -> string;
  Task_init : string -> json -> exn + Task;
  terminal : WorkerState -> bool;
  WorkerEvent_dict : WorkerEvent -> json;
  DOCS_SCHEMA_LOCATION : string
}.

(** The part of [ApplicationConfig] (declared in [blueapi.config]) that the
    commands read. *)
Record StompConfig : Type := {
  host : string;
  port : N
}.

Record ApplicationConfig : Type := {
  stomp : option StompConfig;
  logging_level : string
}.

Section WithLib.

Context {L : Lib}.

(** Modelled from the spec: [WorkerEvent.is_complete], true when the state
    is terminal. *)
Definition is_complete (e : WorkerEvent) : bool := terminal (state e).

(** Modelled from the spec: [WorkerEvent.is_error], true when [errors] is
    not empty. *)
Definition is_error (e : WorkerEvent) : bool :=
  match errors e with
  | [] => false
  | _ :: _ => true
  end.

(** ** What one invocation does to the outside *)

Inductive level : Type := INFO | WARN | ERROR.

(** The calls of an invocation that leave the process, in the order they are
    made: [print], [pprint], the logger's methods, the REST client's methods and
    the bus client's operations.  A logger call is recorded whatever the
    configured level later lets through. *)
Inductive action : Type :=
| Print (s : string)
| Pprint (v : json)
| Input (prompt : string)
| Log (lv : level) (msg : string)
| Config_use_values_from_yaml (path : string)
| Config_load
| Logging_basicConfig (lv : string)
| Schema_write (path : string)
| Schema_print
| Service_start (config : ApplicationConfig)
| Call_create_task (task : Task)
| Call_update_worker_task (task_id : string)
| Call_get_plans
| Call_get_devices
| Call_get_state
| Call_set_state (target : WorkerState) (defer : option bool)
| Call_cancel_current_task (target : WorkerState) (reason : option (option string))
| Bus_connect
| Bus_subscribe_to_topics (task_id : string)
| Bus_subscribe_to_all_events
| Bus_wait_for_complete (timeout : option float)
| Bus_disconnect.

(** An event on the bus: a [WorkerEvent], or a [ProgressEvent] or
    [DataEvent], of which the code only ever takes the [dict()]. *)
Inductive event : Type :=
| Worker (e : WorkerEvent)
| Telemetry (dict : json).

(** What the broker hands to the bus client while the connection is open: an
    event, the moment a running wait's bound is reached, or a broker-level
    error. *)
Inductive bus_input : Type :=
| Deliver (ev : event)
| Elapse
| BrokerError (msg : string).

(** The answers of the world outside one invocation: which paths exist,
    what the configuration loader does, what the REST server answers to each
    request (an argument the code does not pass is [None]), whether the broker
    accepts the connection, what it delivers, and what [input] gives. *)
Record World : Type := {
  w_exists : string -> bool;
  w_use_values_from_yaml : string -> exn + unit;
  w_load : exn + ApplicationConfig;
  w_create_task : Task -> exn + string;
  w_update_worker_task : string -> exn + json;
  w_get_plans : exn + json;
  w_get_devices : exn + json;
  w_get_state : exn + json;
  w_set_state : WorkerState -> option bool -> exn + json;
  w_cancel_current_task : WorkerState -> option (option string) -> exn + json;
  w_connect : exn + unit;
  w_inbox : list bus_input;
  w_input : exn + string
}.

(** The callbacks the code registers with the bus client. *)
Inductive callback : Type :=
| cb_store_finished_event
| cb_on_event.

(** Modelled from the spec: [EventBusClient] (declared in
    [blueapi.cli.event_bus_client], not under src/).  It owns the connection,
    knows the task id and the callback given to [subscribe_to_topics] (or the
    callback given to [subscribe_to_all_events]), keeps the first terminal
    event of the tracked task in a single-slot completion buffer, and shows
    [timed_out]. *)
Record EventBusClient : Type := {
  connected : bool;
  tracked : option (string * callback);
  listening : option callback;
  completion : option WorkerEvent;
  timed_out : bool
}.

(** The state of one invocation: the actions so far, the local deque
    [finished_event] of [run_plan] (its right end is the end of the list), the
    bus client, and what the broker has still to deliver. *)
Record session : Type := {
  out : list action;
  finished_event : list WorkerEvent;
  client : EventBusClient;
  inbox : list bus_input
}.

Definition new_client : EventBusClient :=
  {| connected := false; tracked := None; listening := None;
     completion := None; timed_out := false |}.

Definition start (w : World) : session :=
  {| out := []; finished_event := []; client := new_client;
     inbox := w_inbox w |}.

Definition set_out (o : list action) (s : session) : session :=
  {| out := o; finished_event := finished_event s; client := client s;
     inbox := inbox s |}.

Definition set_finished_event (d : list WorkerEvent) (s : session) : session :=
  {| out := out s; finished_event := d; client := client s; inbox := inbox s |}.

Definition set_client (c : EventBusClient) (s : session) : session :=
  {| out := out s; finished_event := finished_event s; client := c;
     inbox := inbox s |}.

Definition set_inbox (i : list bus_input) (s : session) : session :=
  {| out := out s; finished_event := finished_event s; client := client s;
     inbox := i |}.

Definition tell (a : action) : Py session unit :=
  fun s => (set_out (out s ++ [a]) s, Normal tt).

Definition tell_all (l : list action) : Py session unit :=
  fun s => (set_out (out s ++ l) s, Normal tt).

Definition print (s : string) : Py session unit := tell (Print s).
Definition pprint (v : json) : Py session unit := tell (Pprint v).
Definition log (lv : level) (msg : string) : Py session unit := tell (Log lv msg).

(** [for x in xs: body(x)]. *)
Fixpoint for_each {A} (xs : list A) (body : A -> Py session unit)
  : Py session unit :=
  match xs with
  | [] => ret tt
  | x :: rest => bind (body x) (fun _ => for_each rest body)
  end.

Local Open Scope py_scope.

(** ** [process_event_after_finished] (cli.py, 282-294) *)

Definition process_event_after_finished (e : WorkerEvent) : Py session unit :=
  call (
    (if is_error e then
       log INFO (String.append "Failed with errors: " nl) ;;;
       for_each (errors e) (fun error => log ERROR error) ;;;
       py_return
     else ret tt) ;;;
    (if negb (Nat.eqb (length (warnings e)) 0) then
       log INFO (String.append "Passed with warnings: " nl) ;;;
       for_each (warnings e) (fun warning => log WARN warning) ;;;
       py_return
     else ret tt) ;;;
    log INFO "Plan passed").

(** ** The closure [store_finished_event] of [run_plan] (cli.py, 189-191) *)

Definition store_finished_event (e : WorkerEvent) : Py session unit :=
  if is_complete e then
    fun s => (set_finished_event (finished_event s ++ [e]) s, Normal tt)
  else ret tt.

(** [finished_event.pop()]: the right end of the deque, [IndexError] when it
    is empty. *)
Definition deque_pop : Py session WorkerEvent :=
  fun s =>
    match rev (finished_event s) with
    | [] => (s, Raised (IndexError "pop from an empty deque"))
    | e :: before => (set_finished_event (rev before) s, Normal e)
    end.

(** ** The closure [on_event] of [listen_to_events] (cli.py, 145-150) *)

Definition event_dict (ev : event) : json :=
  match ev with
  | Worker e => WorkerEvent_dict e
  | Telemetry d => d
  end.

Definition on_event (ev : event) : Py session unit :=
  let converted := json_dumps (event_dict ev) in
  print converted.

Definition invoke (cb : callback) (ev : event) : Py session unit :=
  match cb, ev with
  | cb_store_finished_event, Worker e => store_finished_event e
  | cb_store_finished_event, Telemetry _ => ret tt
  | cb_on_event, _ => on_event ev
  end.

(** ** The bus client's operations

    Modelled from the spec: the methods of [EventBusClient] (spec 4.2 and 5).
    The handler given to [subscribe_to_topics] is invoked for every worker
    event whose task reference is the tracked id, and the first such event that
    is terminal goes into the completion buffer; the handler given to
    [subscribe_to_all_events] is invoked for every event. *)

Definition with_connected (b : bool) (c : EventBusClient) : EventBusClient :=
  {| connected := b; tracked := tracked c; listening := listening c;
     completion := completion c; timed_out := timed_out c |}.

Definition with_tracked (t : option (string * callback)) (c : EventBusClient)
  : EventBusClient :=
  {| connected := connected c; tracked := t; listening := listening c;
     completion := completion c; timed_out := timed_out c |}.

Definition with_listening (l : option callback) (c : EventBusClient)
  : EventBusClient :=
  {| connected := connected c; tracked := tracked c; listening := l;
     completion := completion c; timed_out := timed_out c |}.

Definition with_completion (e : option WorkerEvent) (c : EventBusClient)
  : EventBusClient :=
  {| connected := connected c; tracked := tracked c; listening := listening c;
     completion := e; timed_out := timed_out c |}.

Definition with_timed_out (b : bool) (c : EventBusClient) : EventBusClient :=
  {| connected := connected c; tracked := tracked c; listening := listening c;
     completion := completion c; timed_out := b |}.

Definition matches (task_id : string) (e : WorkerEvent) : bool :=
  match task_ref e with
  | Some t => String.eqb t task_id
  | None => false
  end.

Definition notify (cb : callback) (ev : event) (s : session) : session :=
  fst (invoke cb ev s).

Definition capture (e : WorkerEvent) (s : session) : session :=
  match completion (client s) with
  | Some _ => s
  | None =>
      if is_complete e
      then set_client (with_completion (Some e) (client s)) s
      else s
  end.

Definition deliver (i : bus_input) (s : session) : session :=
  match i with
  | Deliver ev =>
      let s1 :=
        match listening (client s) with
        | Some cb => notify cb ev s
        | None => s
        end in
      match tracked (client s1), ev with
      | Some (task_id, cb), Worker e =>
          if matches task_id e then capture e (notify cb ev s1) else s1
      | _, _ => s1
      end
  | Elapse => s
  | BrokerError _ => s
  end.

(** [__enter__]: connect. *)
Definition bus_enter (w : World) : Py session unit :=
  tell Bus_connect ;;;
  lift (w_connect w) ;;;
  fun s => (set_client (with_connected true (client s)) s, Normal tt).

(** [__exit__]: disconnect.  Whatever the broker still had to deliver while
    the connection was open has reached the handlers by then. *)
Definition drain (s : session) : session :=
  set_inbox [] (fold_left (fun acc i => deliver i acc) (inbox s) s).

Definition bus_exit : Py session unit :=
  fun s =>
    let s1 := drain s in
    (set_out (out s1 ++ [Bus_disconnect])
       (set_client (with_connected false (client s1)) s1), Normal tt).

Definition subscribe_to_topics (task_id : string) (cb : callback)
  : Py session unit :=
  tell (Bus_subscribe_to_topics task_id) ;;;
  fun s => (set_client (with_tracked (Some (task_id, cb)) (client s)) s, Normal tt).

Definition subscribe_to_all_events (cb : callback) : Py session unit :=
  tell Bus_subscribe_to_all_events ;;;
  fun s => (set_client (with_listening (Some cb) (client s)) s, Normal tt).

(** The wait itself: it ends as soon as the completion buffer is filled; a
    bounded wait ends with [timed_out] set when its bound is reached first
    (at the latest when nothing more arrives); a broker error is raised to the
    waiting caller as a remote error; an unbounded wait with nothing more to
    arrive never ends. *)
Fixpoint await (bounded : bool) (pending : list bus_input) (s : session)
  : session * outcome unit :=
  match completion (client s) with
  | Some _ =>
      (set_inbox pending (set_client (with_timed_out false (client s)) s),
       Normal tt)
  | None =>
      match pending with
      | [] =>
          if bounded
          then (set_inbox [] (set_client (with_timed_out true (client s)) s),
                Normal tt)
          else (set_inbox [] s, Blocked)
      | Elapse :: rest =>
          if bounded
          then (set_inbox rest (set_client (with_timed_out true (client s)) s),
                Normal tt)
          else await bounded rest s
      | BrokerError msg :: rest =>
          (set_inbox rest s, Raised (BlueskyRemoteError msg))
      | Deliver ev :: rest => await bounded rest (deliver (Deliver ev) s)
      end
  end.

Definition is_bounded (timeout : option float) : bool :=
  match timeout with
  | Some _ => true
  | None => false
  end.

Definition wait_for_complete (timeout : option float) : Py session unit :=
  tell (Bus_wait_for_complete timeout) ;;;
  fun s => await (is_bounded timeout) (inbox s) s.

Definition get_timed_out : Py session bool :=
  fun s => (s, Normal (timed_out (client s))).

(** ** The commands *)

(** A REST request: it is sent, then the server's answer comes back or the
    client raises. *)
Definition rest {A} (request : action) (answer : exn + A) : Py session A :=
  tell request ;;; lift answer.

(** [check_connection] (cli.py, 103-111): the wrapper calls [func], drops
    what it returns and turns a [ConnectionError] into a message. *)
Definition check_connection (func : Py session unit) : Py session unit :=
  call (
    try_except
      (call func)
      (fun e =>
         if isinstance_ConnectionError e
         then print "Failed to establish connection to FastAPI server."
         else raise e)).

(** [f"{timeout}"]. *)
Definition str_timeout (timeout : option float) : string :=
  match timeout with
  | Some t => str_float t
  | None => "None"
  end.

(** [run_plan] (cli.py, 173-221), the function under the decorators.  After
    [parameters or "{}"] the name [parameters] holds a string, so the
    [isinstance(parameters, str)] test of line 195 takes its first branch. *)
Definition run_plan (w : World) (config : ApplicationConfig) (name : string)
  (parameters : option string) (timeout : option float) : Py session unit :=
  call (
    (match stomp config with
     | Some _ => ret tt
     | None =>
         pprint (JStr "ERROR: Cannot run plans without Stomp configuration to track progress") ;;;
         py_return
     end) ;;;
    (fun s => (set_finished_event [] s, Normal tt)) ;;;
    let parameters := py_or parameters "{}" in
    let task_id := "" in
    parsed_params <- lift (json_loads parameters) ;;
    task_id <-
      try_except
        (task <- lift (Task_init name parsed_params) ;;
         resp <- rest (Call_create_task task) (w_create_task w task) ;;
         ret resp)
        (fun e =>
           match e with
           | ValidationError _ =>
               pprint (JStr (String.append "failed to validate the task parameters, "
                              (String.append task_id
                                (String.append ", error: " (str_exn e))))) ;;;
               py_return
           | BlueskyRemoteError _ =>
               pprint (JStr (String.append "server error with this message: "
                              (str_exn e))) ;;;
               py_return
           | _ =>
               if isinstance_ValueError e
               then pprint (JStr "task could not run") ;;; py_return
               else raise e
           end) ;;
    updated <-
      with_ (bus_enter w) bus_exit
        (subscribe_to_topics task_id cb_store_finished_event ;;;
         updated <- rest (Call_update_worker_task task_id)
                         (w_update_worker_task w task_id) ;;
         wait_for_complete timeout ;;;
         timed <- get_timed_out ;;
         if timed then
           log ERROR (String.append "Plan did not complete within "
                       (String.append (str_timeout timeout) " seconds")) ;;;
           py_return
         else ret updated) ;;
    e <- deque_pop ;;
    process_event_after_finished e ;;;
    pprint updated).

(** The command [controller run]: [run_plan] as registered, under
    [check_connection]. *)
Definition controller_run (w : World) (config : ApplicationConfig)
  (name : string) (parameters : option string) (timeout : option float)
  : Py session unit :=
  check_connection (run_plan w config name parameters timeout).

(** What a command leaves behind when it is run from a fresh process. *)
Definition trace (w : World) (command : Py session unit) : list action :=
  out (fst (command (start w))).

Definition result (w : World) (command : Py session unit) : outcome unit :=
  snd (command (start w)).

(** ** The other commands *)

(** [f"{port}"] for a port number. *)
Definition str_port (p : N) : string := NilEmpty.string_of_uint (N.to_uint p).

(** [main] (cli.py, 37-56).  [config] is [None], one path, or the tuple click
    builds for a repeated option.  The value of the model is the configuration
    the function leaves in [ctx.obj["config"]]. *)
Definition main (w : World) (config : option (string + list string))
  (invoked_subcommand : option string) : Py session ApplicationConfig :=
  (match config with
   | None => ret tt
   | Some given =>
       let configs :=
         match given with
         | inl path => [path]
         | inr paths => paths
         end in
       for_each configs
         (fun path =>
            if w_exists w path
            then tell (Config_use_values_from_yaml path) ;;;
                 lift (w_use_values_from_yaml w path)
            else raise (FileNotFoundError
                          (String.append "Cannot find file: " path)))
   end) ;;;
  loaded_config <- (tell Config_load ;;; lift (w_load w)) ;;
  tell (Logging_basicConfig (logging_level loaded_config)) ;;;
  (match invoked_subcommand with
   | None => print "Please invoke subcommand!"
   | Some _ => ret tt
   end) ;;;
  ret loaded_config.

(** [schema] (cli.py, 68-77). *)
Definition schema (output : option string) (update : bool) : Py session unit :=
  let output := if update then Some DOCS_SCHEMA_LOCATION else output in
  match output with
  | Some path => tell (Schema_write path)
  | None => tell Schema_print
  end.

(** [start_application] (cli.py, 82-86). *)
Definition start_application (config : ApplicationConfig) : Py session unit :=
  tell (Service_start config).

(** [get_plans], [get_devices], [get_state], [pause], [resume], [abort] and
    [stop] (cli.py, 117-278), each the function under the decorators. *)
Definition get_plans (w : World) : Py session unit :=
  d <- rest Call_get_plans (w_get_plans w) ;;
  pprint d.

Definition get_devices (w : World) : Py session unit :=
  d <- rest Call_get_devices (w_get_devices w) ;;
  pprint d.

Definition get_state (w : World) : Py session unit :=
  d <- rest Call_get_state (w_get_state w) ;;
  pprint d.

Definition pause (w : World) (defer : bool) : Py session unit :=
  d <- rest (Call_set_state PAUSED (Some defer))
            (w_set_state w PAUSED (Some defer)) ;;
  pprint d.

Definition resume (w : World) : Py session unit :=
  d <- rest (Call_set_state RUNNING None) (w_set_state w RUNNING None) ;;
  pprint d.

Definition abort (w : World) (reason : option string) : Py session unit :=
  d <- rest (Call_cancel_current_task ABORTING (Some reason))
            (w_cancel_current_task w ABORTING (Some reason)) ;;
  pprint d.

Definition stop (w : World) : Py session unit :=
  d <- rest (Call_cancel_current_task STOPPING None)
            (w_cancel_current_task w STOPPING None) ;;
  pprint d.

(** [input(prompt)]. *)
Definition input (w : World) (prompt : string) : Py session string :=
  tell (Input prompt) ;;; lift (w_input w).

(** [listen_to_events] (cli.py, 135-158), the function under the
    decorators. *)
Definition listen_to_events (w : World) (config : ApplicationConfig)
  : Py session unit :=
  call (
    match stomp config with
    | Some stomp_config =>
        print (String.append "Subscribing to all bluesky events from "
                 (String.append (host stomp_config)
                    (String.append ":" (str_port (port stomp_config))))) ;;;
        with_ (bus_enter w) bus_exit
          (subscribe_to_all_events cb_on_event ;;;
           input w "Press enter to exit" ;;;
           ret tt)
    | None => raise (RuntimeError "Message bus needs to be configured")
    end).

(** The commands of the [controller] group as click registers them: every
    one is wrapped in [check_connection]. *)
Inductive command : Type :=
| cmd_plans
| cmd_devices
| cmd_listen
| cmd_run (name : string) (parameters : option string) (timeout : option float)
| cmd_state
| cmd_pause (defer : bool)
| cmd_resume
| cmd_abort (reason : option string)
| cmd_stop.

Definition body_of (w : World) (config : ApplicationConfig) (c : command)
  : Py session unit :=
  match c with
  | cmd_plans => get_plans w
  | cmd_devices => get_devices w
  | cmd_listen => listen_to_events w config
  | cmd_run name parameters timeout => run_plan w config name parameters timeout
  | cmd_state => get_state w
  | cmd_pause defer => pause w defer
  | cmd_resume => resume w
  | cmd_abort reason => abort w reason
  | cmd_stop => stop w
  end.

Definition controller_command (w : World) (config : ApplicationConfig)
  (c : command) : Py session unit :=
  check_connection (body_of w config c).

(** The request a command that only queries or steers the worker sends,
    with the server's answer to it. *)
Definition exchange_of (w : World) (c : command) : option (action * (exn + json)) :=
  match c with
  | cmd_plans => Some (Call_get_plans, w_get_plans w)
  | cmd_devices => Some (Call_get_devices, w_get_devices w)
  | cmd_state => Some (Call_get_state, w_get_state w)
  | cmd_pause defer =>
      Some (Call_set_state PAUSED (Some defer), w_set_state w PAUSED (Some defer))
  | cmd_resume =>
      Some (Call_set_state RUNNING None, w_set_state w RUNNING None)
  | cmd_abort reason =>
      Some (Call_cancel_current_task ABORTING (Some reason),
            w_cancel_current_task w ABORTING (Some reason))
  | cmd_stop =>
      Some (Call_cancel_current_task STOPPING None,
            w_cancel_current_task w STOPPING None)
  | cmd_listen => None
  | cmd_run _ _ _ => None
  end.

(** The events among what the broker delivers, in the order of delivery. *)
Fixpoint events_of (pending : list bus_input) : list event :=
  match pending with
  | [] => []
  | Deliver ev :: rest => ev :: events_of rest
  | _ :: rest => events_of rest
  end.

(** A bus operation, as opposed to anything else a command does. *)
Definition is_bus (a : action) : bool :=
  match a with
  | Bus_connect | Bus_subscribe_to_topics _ | Bus_subscribe_to_all_events
  | Bus_wait_for_complete _ | Bus_disconnect => true
  | _ => false
  end.

(** ** Vocabulary for statements about a run *)

(** The log records [process_event_after_finished] writes for an event, in
    closed form. *)
Definition report (e : WorkerEvent) : list action :=
  match errors e, warnings e with
  | _ :: _, _ =>
      Log INFO (String.append "Failed with errors: " nl)
        :: map (Log ERROR) (errors e)
  | [], _ :: _ =>
      Log INFO (String.append "Passed with warnings: " nl)
        :: map (Log WARN) (warnings e)
  | [], [] => [Log INFO "Plan passed"]
  end.

(** The terminal events of task [task_id] among what the broker delivers, in
    the order of delivery. *)
Fixpoint terminal_events (task_id : string) (pending : list bus_input)
  : list WorkerEvent :=
  match pending with
  | [] => []
  | Deliver (Worker e) :: rest =>
      if matches task_id e && is_complete e
      then e :: terminal_events task_id rest
      else terminal_events task_id rest
  | _ :: rest => terminal_events task_id rest
  end.

(** How a wait for task [task_id] that starts with an empty completion buffer
    ends, read off what the broker delivers. *)
Inductive ending : Type :=
| Completes (e : WorkerEvent)
| TimesOut
| Breaks (msg : string)
| NeverEnds.

Fixpoint ending_of (task_id : string) (bounded : bool)
  (pending : list bus_input) : ending :=
  match pending with
  | [] => if bounded then TimesOut else NeverEnds
  | Deliver (Worker e) :: rest =>
      if matches task_id e && is_complete e
      then Completes e
      else ending_of task_id bounded rest
  | Deliver (Telemetry _) :: rest => ending_of task_id bounded rest
  | Elapse :: rest => if bounded then TimesOut else ending_of task_id bounded rest
  | BrokerError msg :: _ => Breaks msg
  end.

(** The session in which [run_plan] starts to wait, when everything before
    the wait went well: the task was registered as [task_id], the connection
    is open, [store_finished_event] is subscribed for [task_id] and the start
    command has been answered. *)
Definition waiting (w : World) (task : Task) (task_id : string)
  (timeout : option float) : session :=
  {| out := [Call_create_task task; Bus_connect;
             Bus_subscribe_to_topics task_id;
             Call_update_worker_task task_id;
             Bus_wait_for_complete timeout];
     finished_event := [];
     client := {| connected := true;
                  tracked := Some (task_id, cb_store_finished_event);
                  listening := None; completion := None; timed_out := false |};
     inbox := w_inbox w |}.

(** The subscription [run_plan] makes, and no other. *)
Definition tracking (task_id : string) (s : session) : Prop :=
  listening (client s) = None /\
  tracked (client s) = Some (task_id, cb_store_finished_event).

(** A REST request, as opposed to anything else a command does. *)
Definition is_request (a : action) : bool :=
  match a with
  | Call_create_task _ | Call_update_worker_task _ | Call_get_plans
  | Call_get_devices | Call_get_state | Call_set_state _ _
  | Call_cancel_current_task _ _ => true
  | _ => false
  end.

End WithLib.

End Cli.

(** * The worker-side bridge: [src/blueapi/service/app.py] *)

Module Service.

(** What the bridge reads of a [Plan] and of a [Device] (both declared in
    [blueapi.core]).  A protocol is known by its [__name__]; a device carries
    the protocols that [isinstance] finds it to satisfy. *)
Record Plan : Type := {
  plan_name : string
}.

Record Device : Type := {
  device_name : string;
  implements : list string
}.

(** The registry [ctx]: [plans] and [devices] are dicts, read in insertion
    order by [values()]. *)
Record BlueskyContext : Type := {
  plans : list (string * Plan);
  devices : list (string * Device)
}.

Record MessageContext : Type := {
  destination : string;
  reply_destination : option string
}.

(** What the module takes from elsewhere: the tuple [BLUESKY_PROTOCOLS] of
    [blueapi.core], and [str(uuid.uuid1())] as the text produced by the n-th
    call in the life of the process. *)
Class Lib : Type := {
  BLUESKY_PROTOCOLS : list string;
  uuid1 : nat -> string
}.

(** The callbacks [Service.run] can hand to the messaging template, and the
    ones it hands to the worker's three event streams. *)
Inductive handler : Type :=
| h_on_run_request
| h_get_plans
| h_get_devices.

Inductive stream : Type :=
| worker_events
| task_events
| data_events.

Inductive relay : Type :=
| r_on_worker_event
| r_on_task_event
| r_on_data_event.

(** The process: the module-level registry, the number of ids drawn so far,
    what the worker was given ([submit_task]), what the template sent
    ([send]), the registered callbacks, and whether the template is
    connected. *)
Record state : Type := {
  ctx : BlueskyContext;
  clock : nat;
  submitted : list (string * json);
  sent : list (string * json);
  subscriptions : list (string * handler);
  listeners : list (stream * relay);
  connected : bool
}.

Definition boot (c : BlueskyContext) : state :=
  {| ctx := c; clock := 0; submitted := []; sent := []; subscriptions := [];
     listeners := []; connected := false |}.

Section WithLib.

Context {L : Lib}.

Local Open Scope py_scope.

Definition send (dest : string) (obj : json) : Py state unit :=
  fun s =>
    ({| ctx := ctx s; clock := clock s; submitted := submitted s;
        sent := sent s ++ [(dest, obj)]; subscriptions := subscriptions s;
        listeners := listeners s; connected := connected s |}, Normal tt).

Definition submit_task (name : string) (task : json) : Py state unit :=
  fun s =>
    ({| ctx := ctx s; clock := clock s;
        submitted := submitted s ++ [(name, task)];
        sent := sent s; subscriptions := subscriptions s;
        listeners := listeners s; connected := connected s |}, Normal tt).

Definition subscribe (topic : string) (h : handler) : Py state unit :=
  fun s =>
    ({| ctx := ctx s; clock := clock s; submitted := submitted s;
        sent := sent s; subscriptions := subscriptions s ++ [(topic, h)];
        listeners := listeners s; connected := connected s |}, Normal tt).

Definition listen (st : stream) (r : relay) : Py state unit :=
  fun s =>
    ({| ctx := ctx s; clock := clock s; submitted := submitted s;
        sent := sent s; subscriptions := subscriptions s;
        listeners := listeners s ++ [(st, r)]; connected := connected s |},
     Normal tt).

Definition connect : Py state unit :=
  fun s =>
    ({| ctx := ctx s; clock := clock s; submitted := submitted s;
        sent := sent s; subscriptions := subscriptions s;
        listeners := listeners s; connected := true |}, Normal tt).

(** [str(uuid.uuid1())]. *)
Definition new_uuid : Py state string :=
  fun s =>
    ({| ctx := ctx s; clock := S (clock s); submitted := submitted s;
        sent := sent s; subscriptions := subscriptions s;
        listeners := listeners s; connected := connected s |},
     Normal (uuid1 (clock s))).

Definition get_ctx : Py state BlueskyContext := fun s => (s, Normal (ctx s)).

(** ** The module's functions (app.py, 85-103) *)

Definition _display_plan (plan : Plan) : json :=
  JObj [("name", JStr (plan_name plan))].

Definition isinstance (device : Device) (protocol : string) : bool :=
  existsb (String.eqb protocol) (implements device).

Definition _protocol_names (device : Device) : list string :=
  filter (isinstance device) BLUESKY_PROTOCOLS.

Definition _display_device (device : Device) : json :=
  let name :=
    if isinstance device "Readable" || isinstance device "Flyable"
    then device_name device
    else "UNKNOWN" in
  JObj [("name", JStr name);
        ("protocols", JArr (map JStr (_protocol_names device)))].

(** ** The methods of [Service] (app.py, 45-82) *)

Definition _on_worker_event (ev : json) : Py state unit := send "worker.event" ev.

Definition _on_task_event (ev : json) : Py state unit := send "worker.event.task" ev.

Definition _on_data_event (ev : json) : Py state unit := send "worker.event.data" ev.

(** [assert message_context.reply_destination is not None] and the [send]
    to that destination which follows it. *)
Definition reply (message_context : MessageContext) (obj : json)
  : Py state unit :=
  match reply_destination message_context with
  | None => raise AssertionError
  | Some dest => send dest obj
  end.

Definition _on_run_request (message_context : MessageContext) (task : json)
  : Py state unit :=
  call (
    name <- new_uuid ;;
    submit_task name task ;;;
    reply message_context (JStr name)).

Definition _get_plans (message_context : MessageContext) (message : json)
  : Py state unit :=
  call (
    c <- get_ctx ;;
    let plans := map _display_plan (map snd (plans c)) in
    reply message_context (JArr plans)).

Definition _get_devices (message_context : MessageContext) (message : json)
  : Py state unit :=
  call (
    c <- get_ctx ;;
    let devices := map _display_device (map snd (devices c)) in
    reply message_context (JArr devices)).

(** [Service.run] up to the call of [run_forever], which does not return. *)
Definition run : Py state unit :=
  call (
    listen worker_events r_on_worker_event ;;;
    listen task_events r_on_task_event ;;;
    listen data_events r_on_data_event ;;;
    connect ;;;
    subscribe "worker.run" h_on_run_request ;;;
    subscribe "worker.plans" h_get_plans ;;;
    subscribe "worker.devices" h_get_plans ;;;
    fun s => (s, Blocked)).

(** ** The running bridge

    While [run_forever] runs, the template calls the handler registered for
    the topic of each inbound message, and each event stream of the worker
    calls the callbacks registered on it. *)

Definition apply_handler (h : handler) : MessageContext -> json -> Py state unit :=
  match h with
  | h_on_run_request => _on_run_request
  | h_get_plans => _get_plans
  | h_get_devices => _get_devices
  end.

Definition apply_relay (r : relay) : json -> Py state unit :=
  match r with
  | r_on_worker_event => _on_worker_event
  | r_on_task_event => _on_task_event
  | r_on_data_event => _on_data_event
  end.

Definition stream_eqb (a b : stream) : bool :=
  match a, b with
  | worker_events, worker_events => true
  | task_events, task_events => true
  | data_events, data_events => true
  | _, _ => false
  end.

(** The handlers registered for a topic, in the order of registration. *)
Definition handlers_for (topic : string) (s : state) : list handler :=
  map snd (filter (fun p => String.eqb (fst p) topic) (subscriptions s)).

Definition relays_for (st : stream) (s : state) : list relay :=
  map snd (filter (fun p => stream_eqb (fst p) st) (listeners s)).

(** One inbound message: every handler of its topic is called; an exception
    stays in the call that raised it, and the result lists how each call
    ended. *)
Fixpoint call_all (hs : list handler) (mc : MessageContext) (body : json)
  (s : state) : state * list (outcome unit) :=
  match hs with
  | [] => (s, [])
  | h :: rest =>
      let (s1, r) := apply_handler h mc body s in
      let (s2, rs) := call_all rest mc body s1 in
      (s2, r :: rs)
  end.

Definition on_message (topic : string) (mc : MessageContext) (body : json)
  (s : state) : state * list (outcome unit) :=
  call_all (handlers_for topic s) mc body s.

Fixpoint relay_all (rs : list relay) (ev : json) (s : state) : state :=
  match rs with
  | [] => s
  | r :: rest => relay_all rest ev (fst (apply_relay r ev s))
  end.

Definition on_event (st : stream) (ev : json) (s : state) : state :=
  relay_all (relays_for st s) ev s.

(** The ids drawn so far, in the order they were drawn. *)
Definition issued (s : state) : list string := map uuid1 (seq 0 (clock s)).

(** The state in which the bridge serves: after [run] has registered
    everything. *)
Definition serving (c : BlueskyContext) : state := fst (run (boot c)).

(** An inbound message, and the bridge taking a sequence of them one after
    the other. *)
Record inbound : Type := {
  topic : string;
  context : MessageContext;
  payload : json
}.

Fixpoint serve (ms : list inbound) (s : state) : state :=
  match ms with
  | [] => s
  | m :: rest =>
      serve rest (fst (on_message (topic m) (context m) (payload m) s))
  end.

(** The worker publishing a sequence of events on one of its streams. *)
Fixpoint publish (st : stream) (evs : list json) (s : state) : state :=
  match evs with
  | [] => s
  | ev :: rest => publish st rest (on_event st ev s)
  end.

(** The topic each stream is republished on. *)
Definition topic_of (st : stream) : string :=
  match st with
  | worker_events => "worker.event"
  | task_events => "worker.event.task"
  | data_events => "worker.event.data"
  end.

End WithLib.

End Service.

(** * The example REST application: [src/blueapi/example/app.py] *)

Module Example.

(** What the module takes from elsewhere: the type of a plan's model and
    [apischema]'s [deserialization_schema] on it, and [uuid.uuid1()] as the
    value produced by the n-th call in the life of the process. *)
Class Lib : Type := {
  model : Type;
  deserialization_schema : model -> json;
  uuid1 : nat -> string
}.

Section WithLib.

Context {L : Lib}.

Local Open Scope py_scope.

Record Plan : Type := {
  plan_name : string;
  plan_model : model
}.

(** The answers of [BlueskyController] (declared in [blueapi.core]). *)
Record Controller : Type := {
  c_get_plans : exn + list Plan;
  c_run_plan : string -> json -> exn + unit
}.

(** The process: the number of ids drawn so far, and the runs the
    controller was asked for. *)
Record state : Type := {
  clock : nat;
  asked : list (string * json)
}.

Definition new_uuid : Py state string :=
  fun s => ({| clock := S (clock s); asked := asked s |}, Normal (uuid1 (clock s))).

Definition ask (name : string) (params : json) : Py state unit :=
  fun s => ({| clock := clock s; asked := asked s ++ [(name, params)] |}, Normal tt).

(** [display_plan], local to [get_plans] (app.py, 33-34). *)
Definition display_plan (plan : Plan) : json :=
  JObj [("name", JStr (plan_name plan));
        ("schema", deserialization_schema (plan_model plan))].

(** [get_plans] (app.py, 31-36). *)
Definition get_plans (c : Controller) : Py state (list json) :=
  found <- lift (c_get_plans c) ;;
  ret (map display_plan found).

(** [run_plan] (app.py, 39-42). *)
Definition run_plan (c : Controller) (name : string) (params : json)
  : Py state string :=
  ask name params ;;;
  lift (c_run_plan c name params) ;;;
  new_uuid.

Definition issued (s : state) : list string := map uuid1 (seq 0 (clock s)).

End WithLib.

End Example.

(** * Concrete libraries, worlds and events for the worked runs *)

Module Demo.

Import Cli.

(** Whole seconds stand for the floats of [--timeout]; [str(5.0)] is
    ["5.0"]. *)
Definition str_seconds (n : nat) : string :=
  String.append (NilEmpty.string_of_uint (Nat.to_uint n)) ".0".

(** The two literals the runs below hand to [json.loads]. *)
Definition loads (s : string) : exn + json :=
  if String.eqb s "{}" then inr (JObj [])
  else if String.eqb s "[]" then inr (JArr [])
  else inl (JSONDecodeError "Expecting value").

Definition dq : string := String (ascii_of_nat 34) EmptyString.

Definition quoted (s : string) : string := String.append dq (String.append s dq).

Fixpoint dumps (v : json) : string :=
  match v with
  | JNull => "null"
  | JBool true => "true"
  | JBool false => "false"
  | JNum literal => literal
  | JStr s => quoted s
  | JArr items =>
      String.append "[" (String.append (String.concat ", " (map dumps items)) "]")
  | JObj members =>
      String.append "{"
        (String.append
           (String.concat ", "
              (map (fun kv => String.append (quoted (fst kv))
                                (String.append ": " (dumps (snd kv))))
                 members))
           "}")
  end.

(** [Task] accepts a mapping for [params] and nothing else. *)
Definition new_task (name : string) (v : json) : exn + Task :=
  match v with
  | JObj members => inr {| task_name := name; task_params := members |}
  | _ => inl (ValidationError "params: value is not a valid dict")
  end.

Definition state_name (st : WorkerState) : string :=
  match st with
  | IDLE => "IDLE"
  | RUNNING => "RUNNING"
  | PAUSED => "PAUSED"
  | ABORTING => "ABORTING"
  | STOPPING => "STOPPING"
  | OTHER_STATE name => name
  end.

Definition event_as_dict (e : WorkerEvent) : json :=
  JObj [("state", JStr (state_name (state e)));
        ("errors", JArr (map JStr (errors e)));
        ("warnings", JArr (map JStr (warnings e)))].

(** A worker that is idle again has finished its task. *)
Definition idle_is_terminal (st : WorkerState) : bool :=
  match st with
  | IDLE => true
  | _ => false
  end.

Definition lib : Lib :=
  {| float := nat;
     str_float := str_seconds;
     json_loads := loads;
     json_dumps := dumps;
     Task_init := new_task;
     terminal := idle_is_terminal;
     WorkerEvent_dict := event_as_dict;
     DOCS_SCHEMA_LOCATION := "docs/reference/openapi.yaml" |}.

(** [--timeout 5]. *)
Definition five : @float lib := 5.

Definition config : ApplicationConfig :=
  {| stomp := Some {| host := "localhost"; port := 61613%N |};
     logging_level := "INFO" |}.

Definition no_stomp : ApplicationConfig :=
  {| stomp := None; logging_level := "INFO" |}.

Definition running : WorkerEvent :=
  {| state := RUNNING; errors := []; warnings := []; task_ref := Some "t1" |}.

Definition passed : WorkerEvent :=
  {| state := IDLE; errors := []; warnings := []; task_ref := Some "t1" |}.

Definition failed : WorkerEvent :=
  {| state := IDLE; errors := ["motor x stalled"]; warnings := [];
     task_ref := Some "t1" |}.

Definition warned : WorkerEvent :=
  {| state := IDLE; errors := []; warnings := ["detector gain is low"];
     task_ref := Some "t1" |}.

Definition failed_and_warned : WorkerEvent :=
  {| state := IDLE; errors := ["motor x stalled"; "shutter closed"];
     warnings := ["detector gain is low"]; task_ref := Some "t1" |}.

Definition other_task : WorkerEvent :=
  {| state := IDLE; errors := ["unrelated"]; warnings := [];
     task_ref := Some "t2" |}.

Definition accepted : json := JObj [("task_id", JStr "t1")].

(** A server that registers every task as ["t1"] and starts it, and a broker
    that delivers [inbox]. *)
Definition world (inbox : list bus_input) : World :=
  {| w_exists := fun _ => true;
     w_use_values_from_yaml := fun _ => inr tt;
     w_load := inr config;
     w_create_task := fun _ => inr "t1";
     w_update_worker_task := fun _ => inr accepted;
     w_get_plans := inr (JObj [("plans", JArr [])]);
     w_get_devices := inr (JObj [("devices", JArr [])]);
     w_get_state := inr (JStr "IDLE");
     w_set_state := fun st _ => inr (JStr (state_name st));
     w_cancel_current_task := fun st _ => inr (JStr (state_name st));
     w_connect := inr tt;
     w_inbox := inbox;
     w_input := inr "" |}.

(** The same server when it finds the parameters of a task invalid. *)
Definition rejecting (inbox : list bus_input) : World :=
  {| w_exists := fun _ => true;
     w_use_values_from_yaml := fun _ => inr tt;
     w_load := inr config;
     w_create_task := fun _ => inl (ValidationError "time: field required");
     w_update_worker_task := fun _ => inr accepted;
     w_get_plans := inr (JObj [("plans", JArr [])]);
     w_get_devices := inr (JObj [("devices", JArr [])]);
     w_get_state := inr (JStr "IDLE");
     w_set_state := fun st _ => inr (JStr (state_name st));
     w_cancel_current_task := fun st _ => inr (JStr (state_name st));
     w_connect := inr tt;
     w_inbox := inbox;
     w_input := inr "" |}.

(** A world in which the named files are the only ones missing, and the
    registration, the connection and the start command are answered as
    given. *)
Definition world_with (missing : list string) (create : exn + string)
  (connect : exn + unit) (update : exn + json) (inbox : list bus_input)
  : World :=
  {| w_exists := fun path => negb (existsb (String.eqb path) missing);
     w_use_values_from_yaml := fun _ => inr tt;
     w_load := inr config;
     w_create_task := fun _ => create;
     w_update_worker_task := fun _ => update;
     w_get_plans := inl (ConnectionError "connection refused");
     w_get_devices := inr (JObj [("devices", JArr [])]);
     w_get_state := inr (JStr "IDLE");
     w_set_state := fun st _ => inr (JStr (state_name st));
     w_cancel_current_task := fun st _ => inr (JStr (state_name st));
     w_connect := connect;
     w_inbox := inbox;
     w_input := inr "" |}.

Definition sleep : Task := {| task_name := "sleep"; task_params := [] |}.

Definition progress : event :=
  Telemetry (JObj [("task", JStr "t1"); ("percentage", JNum "0.5")]).

End Demo.

Module DemoService.

Import Service.

Definition uuid_of (n : nat) : string :=
  String.append "uuid-" (NilEmpty.string_of_uint (Nat.to_uint n)).

Definition lib : Lib :=
  {| BLUESKY_PROTOCOLS := ["Movable"; "Readable"; "Flyable"; "Stageable"];
     uuid1 := uuid_of |}.

Definition motor : Device :=
  {| device_name := "x"; implements := ["Readable"; "Movable"; "Stageable"] |}.

Definition shutter : Device :=
  {| device_name := "shutter"; implements := ["Movable"] |}.

Definition registry : BlueskyContext :=
  {| plans := [("sleep", {| plan_name := "sleep" |});
               ("count", {| plan_name := "count" |})];
     devices := [("x", motor); ("shutter", shutter)] |}.

Definition query : MessageContext :=
  {| destination := "worker.devices"; reply_destination := Some "reply-q" |}.

Definition orphan : MessageContext :=
  {| destination := "worker.run"; reply_destination := None |}.

Definition request : MessageContext :=
  {| destination := "worker.run"; reply_destination := Some "reply-q" |}.

Definition sleep_task : json :=
  JObj [("name", JStr "sleep"); ("params", JObj [("time", JNum "0.1")])].

Definition plans_query : inbound :=
  {| topic := "worker.plans";
     context := {| destination := "worker.plans";
                   reply_destination := Some "reply-q" |};
     payload := JStr "" |}.

Definition run_request : inbound :=
  {| topic := "worker.run"; context := request; payload := sleep_task |}.

End DemoService.

Module DemoExample.

Import Example.

(** A model is known by the name of its class. *)
Definition lib : Lib :=
  {| model := string;
     deserialization_schema :=
       fun m => JObj [("title", JStr m); ("type", JStr "object")];
     uuid1 := DemoService.uuid_of |}.

Definition controller : @Controller lib :=
  {| c_get_plans :=
       inr [ @Build_Plan lib "sleep" "SleepModel";
             @Build_Plan lib "move" "MoveModel" ];
     c_run_plan := fun _ _ => inr tt |}.

Definition idle : state := {| clock := 0; asked := [] |}.

End DemoExample.

(** * Proofs *)

(** ** Running the monad *)

Section Steps.
Context {S A B : Type}.

Lemma bind_ret (a : A) (k : A -> Py S B) (s : S) : bind (ret a) k s = k a s.
Proof. reflexivity. Qed.

Lemma bind_py_return (k : A -> Py S B) (s : S) :
  bind py_return k s = (s, Returned).
Proof. reflexivity. Qed.

Lemma bind_raise (e : exn) (k : A -> Py S B) (s : S) :
  bind (raise e) k s = (s, Raised e).
Proof. reflexivity. Qed.

Lemma bind_lift_inr (a : A) (k : A -> Py S B) (s : S) :
  bind (lift (inr a)) k s = k a s.
Proof. reflexivity. Qed.

Lemma bind_lift_inl (e : exn) (k : A -> Py S B) (s : S) :
  bind (lift (inl e)) k s = (s, Raised e).
Proof. reflexivity. Qed.

Lemma bind_assoc {C} (c : Py S A) (k1 : A -> Py S B) (k2 : B -> Py S C) (s : S) :
  bind (bind c k1) k2 s = bind c (fun x => bind (k1 x) k2) s.
Proof. unfold bind. destruct (c s) as [s' [a| |e|]]; reflexivity. Qed.

End Steps.


(** Symbolic execution of a command: the combinators are unfolded, the
    session is kept in normal form, and the world's answers are rewritten in
    as the run reaches them. *)
Ltac py_run :=
  cbv beta iota zeta delta
    [Cli.run_plan Cli.controller_run Cli.check_connection call try_except with_
     Cli.rest Cli.bus_enter Cli.subscribe_to_topics Cli.wait_for_complete
     Cli.get_timed_out bind ret lift raise py_return Cli.tell Cli.pprint
     Cli.print Cli.log Cli.start Cli.result Cli.trace
     isinstance_ConnectionError isinstance_ValueError];
  cbn [Cli.out Cli.client Cli.finished_event Cli.inbox Cli.set_out
       Cli.set_client Cli.set_finished_event Cli.set_inbox Cli.with_connected
       Cli.with_tracked Cli.with_timed_out Cli.connected Cli.tracked
       Cli.listening Cli.completion Cli.timed_out Cli.new_client app fst snd].

(** ** The controller *)

Section CliFacts.

Import Cli.

Context {L : Lib}.

Lemma session_eta (s : session) :
  set_out (out s) s = s.
Proof. destruct s; reflexivity. Qed.

Lemma bind_tell {A} (a : action) (k : unit -> Py session A) (s : session) :
  bind (tell a) k s = k tt (set_out (out s ++ [a]) s).
Proof. reflexivity. Qed.

Lemma bind_log {A} (lv : level) (msg : string) (k : unit -> Py session A)
  (s : session) :
  bind (log lv msg) k s = k tt (set_out (out s ++ [Log lv msg]) s).
Proof. reflexivity. Qed.

Lemma bind_pprint {A} (v : json) (k : unit -> Py session A) (s : session) :
  bind (pprint v) k s = k tt (set_out (out s ++ [Pprint v]) s).
Proof. reflexivity. Qed.

Lemma bind_print {A} (m : string) (k : unit -> Py session A) (s : session) :
  bind (print m) k s = k tt (set_out (out s ++ [Print m]) s).
Proof. reflexivity. Qed.

Lemma for_each_log (lv : level) (xs : list string) (s : session) :
  for_each xs (fun x => log lv x) s =
  (set_out (out s ++ map (Log lv) xs) s, Normal tt).
Proof.
  revert s. induction xs as [|x xs IH]; intros s.
  - cbn [for_each map]. rewrite app_nil_r, session_eta. reflexivity.
  - cbn [for_each map]. rewrite bind_log, IH. cbn [out set_out].
    rewrite <- app_assoc. reflexivity.
Qed.

Lemma bind_for_each_log {A} (lv : level) (xs : list string)
  (k : unit -> Py session A) (s : session) :
  bind (for_each xs (fun x => log lv x)) k s =
  k tt (set_out (out s ++ map (Log lv) xs) s).
Proof. unfold bind at 1. rewrite for_each_log. reflexivity. Qed.

Lemma process_event_after_finished_report (e : WorkerEvent) (s : session) :
  process_event_after_finished e s = (set_out (out s ++ report e) s, Normal tt).
Proof.
  unfold process_event_after_finished, report, is_error, call.
  destruct (errors e) as [|err errs].
  - destruct (warnings e) as [|wn wns]; cbv beta iota; rewrite bind_ret.
    + reflexivity.
    + change (negb (Nat.eqb (length (wn :: wns)) 0)) with true. cbv iota.
      rewrite !bind_assoc, bind_log, bind_assoc, bind_for_each_log, bind_py_return.
      cbn [out set_out]. rewrite <- app_assoc. reflexivity.
  - cbv beta iota.
    rewrite !bind_assoc, bind_log, bind_assoc, bind_for_each_log, bind_py_return.
    cbn [out set_out]. rewrite <- app_assoc. reflexivity.
Qed.

Lemma terminal_events_app (task_id : string) (l1 l2 : list bus_input) :
  terminal_events task_id (l1 ++ l2) =
  terminal_events task_id l1 ++ terminal_events task_id l2.
Proof.
  induction l1 as [|i l1 IH]; simpl; [reflexivity|].
  destruct i as [[e|d]| |m]; try assumption.
  destruct (matches task_id e && is_complete e); simpl; congruence.
Qed.

Lemma deliver_tracking (task_id : string) (i : bus_input) (s : session) :
  tracking task_id s ->
  tracking task_id (deliver i s) /\
  out (deliver i s) = out s /\
  inbox (deliver i s) = inbox s /\
  timed_out (client (deliver i s)) = timed_out (client s) /\
  connected (client (deliver i s)) = connected (client s) /\
  finished_event (deliver i s) = finished_event s ++ terminal_events task_id [i] /\
  completion (client (deliver i s)) =
    match completion (client s) with
    | Some c => Some c
    | None => hd_error (terminal_events task_id [i])
    end.
Proof.
  intros [Hl Ht]. destruct s as [o d c ib]; destruct c as [cn tr li cp to].
  cbn in Hl, Ht. subst.
  destruct i as [[e|dd]| |m];
    cbv [deliver notify invoke capture store_finished_event tracking ret fst
         client listening tracked completion set_client with_completion
         set_finished_event finished_event out inbox timed_out connected
         terminal_events hd_error];
    try (rewrite ?app_nil_r; destruct cp; repeat split; reflexivity).
  destruct (matches task_id e); cbn [andb];
    [|rewrite ?app_nil_r; destruct cp; repeat split; reflexivity].
  destruct (is_complete e); cbn [fst];
    rewrite ?app_nil_r; destruct cp; repeat split; reflexivity.
Qed.

Lemma tracking_set (task_id : string) (s : session) (b : bool)
  (i : list bus_input) :
  tracking task_id s ->
  tracking task_id (set_inbox i (set_client (with_timed_out b (client s)) s)).
Proof. intros H; exact H. Qed.

Lemma await_spec (task_id : string) (bounded : bool) (pending : list bus_input) :
  forall s : session,
    tracking task_id s ->
    out (fst (await bounded pending s)) = out s /\
    connected (client (fst (await bounded pending s))) = connected (client s) /\
    tracking task_id (fst (await bounded pending s)) /\
    finished_event (fst (await bounded pending s))
      ++ terminal_events task_id (inbox (fst (await bounded pending s)))
    = finished_event s ++ terminal_events task_id pending /\
    match completion (client s) with
    | Some _ =>
        snd (await bounded pending s) = Normal tt /\
        timed_out (client (fst (await bounded pending s))) = false
    | None =>
        match ending_of task_id bounded pending with
        | Completes _ =>
            snd (await bounded pending s) = Normal tt /\
            timed_out (client (fst (await bounded pending s))) = false
        | TimesOut =>
            snd (await bounded pending s) = Normal tt /\
            timed_out (client (fst (await bounded pending s))) = true
        | Breaks msg =>
            snd (await bounded pending s) = Raised (BlueskyRemoteError msg)
        | NeverEnds => snd (await bounded pending s) = Blocked
        end
    end.
Proof.
  induction pending as [|i rest IH]; intros s Ht.
  - cbn [await ending_of]. destruct (completion (client s)); [|destruct bounded];
      cbn [fst snd]; repeat split; try reflexivity; apply Ht.
  - destruct (completion (client s)) as [c|] eqn:Ec.
    + assert (E : await bounded (i :: rest) s =
                  (set_inbox (i :: rest)
                     (set_client (with_timed_out false (client s)) s), Normal tt)).
      { cbn [await]. rewrite Ec. reflexivity. }
      rewrite E. cbn [fst snd]. repeat split; try reflexivity; apply Ht.
    + destruct i as [ev| |msg].
      * assert (E : await bounded (Deliver ev :: rest) s =
                    await bounded rest (deliver (Deliver ev) s)).
        { cbn [await]. rewrite Ec. reflexivity. }
        rewrite E.
        destruct (deliver_tracking task_id (Deliver ev) s Ht)
          as (Ht' & Ho & _ & _ & Hcn & Hd & Hc).
        destruct (IH _ Ht') as (IHo & IHcn & IHt & IHd & IHe).
        rewrite Ec in Hc. rewrite Hc in IHe.
        split; [congruence|]. split; [congruence|]. split; [exact IHt|].
        split.
        { rewrite IHd, Hd, <- app_assoc, <- terminal_events_app. reflexivity. }
        cbn [ending_of terminal_events] in *.
        destruct ev as [e|d]; [|exact IHe].
        destruct (matches task_id e && is_complete e); exact IHe.
      * cbn [await ending_of terminal_events]. rewrite Ec.
        destruct bounded.
        -- cbn [fst snd]. repeat split; try reflexivity; apply Ht.
        -- destruct (IH _ Ht) as (IHo & IHcn & IHt & IHd & IHe). rewrite Ec in IHe.
           repeat split; try assumption; apply IHt.
      * cbn [await ending_of terminal_events]. rewrite Ec. cbn [fst snd].
        repeat split; try reflexivity; apply Ht.
Qed.

Lemma fold_deliver_tracking (task_id : string) (pending : list bus_input) :
  forall s : session,
    tracking task_id s ->
    out (fold_left (fun acc i => deliver i acc) pending s) = out s /\
    timed_out (client (fold_left (fun acc i => deliver i acc) pending s))
    = timed_out (client s) /\
    finished_event (fold_left (fun acc i => deliver i acc) pending s)
    = finished_event s ++ terminal_events task_id pending.
Proof.
  induction pending as [|i rest IH]; intros s Ht; cbn [fold_left].
  - cbn [terminal_events]. rewrite app_nil_r. repeat split; reflexivity.
  - destruct (deliver_tracking task_id i s Ht) as (Ht' & Ho & _ & Hto & _ & Hd & _).
    destruct (IH _ Ht') as (IHo & IHto & IHd).
    split; [congruence|]. split; [congruence|].
    rewrite IHd, Hd, <- app_assoc, <- terminal_events_app. reflexivity.
Qed.

Lemma bus_exit_tracking (task_id : string) (s : session) :
  tracking task_id s ->
  snd (bus_exit s) = Normal tt /\
  out (fst (bus_exit s)) = out s ++ [Bus_disconnect] /\
  timed_out (client (fst (bus_exit s))) = timed_out (client s) /\
  connected (client (fst (bus_exit s))) = false /\
  finished_event (fst (bus_exit s))
  = finished_event s ++ terminal_events task_id (inbox s).
Proof.
  intros Ht. unfold bus_exit, drain.
  cbn [fst snd out finished_event client timed_out connected set_out set_client
       set_inbox with_connected].
  destruct (fold_deliver_tracking task_id (inbox s) s Ht) as (Ho & Hto & Hd).
  rewrite Ho, Hto, Hd. repeat split; reflexivity.
Qed.

Lemma ending_completes (task_id : string) (bounded : bool)
  (pending : list bus_input) (e : WorkerEvent) :
  ending_of task_id bounded pending = Completes e ->
  exists later, terminal_events task_id pending = e :: later.
Proof.
  induction pending as [|i rest IH]; cbn [ending_of terminal_events].
  - destruct bounded; discriminate.
  - destruct i as [[e'|d]| |msg].
    + destruct (matches task_id e' && is_complete e').
      * intros H; injection H as ->. eexists; reflexivity.
      * exact IH.
    + exact IH.
    + destruct bounded; [discriminate|exact IH].
    + discriminate.
Qed.

Lemma rev_cons_last {A} (l : list A) (x d : A) (before : list A) :
  rev l = x :: before -> last l d = x /\ l = rev before ++ [x].
Proof.
  intros H. assert (E : l = rev before ++ [x]).
  { rewrite <- (rev_involutive l), H. reflexivity. }
  split; [|exact E]. rewrite E. apply last_last.
Qed.

Lemma deque_pop_last (s : session) (e : WorkerEvent) (later : list WorkerEvent) :
  finished_event s = e :: later ->
  deque_pop s =
  (set_finished_event (removelast (e :: later)) s, Normal (last (e :: later) e)).
Proof.
  intros H. unfold deque_pop. rewrite H.
  destruct (rev (e :: later)) as [|x before] eqn:Er.
  - apply (f_equal (@length _)) in Er. rewrite length_rev in Er. discriminate.
  - destruct (rev_cons_last _ x e before Er) as [Hl Hd].
    rewrite Hl. rewrite Hd at 1. rewrite removelast_last. reflexivity.
Qed.

Lemma run_after_start (w : World) (config : ApplicationConfig) (name : string)
  (parameters : option string) (timeout : option float)
  (sc : StompConfig) (v : json) (task : Task) (task_id : string) (updated : json) :
  stomp config = Some sc ->
  json_loads (py_or parameters "{}") = inr v ->
  Task_init name v = inr task ->
  w_create_task w task = inr task_id ->
  w_connect w = inr tt ->
  w_update_worker_task w task_id = inr updated ->
  exists s' : session,
    fst (controller_run w config name parameters timeout (start w)) = s' /\
    match ending_of task_id (is_bounded timeout) (w_inbox w) with
    | Completes first =>
        result w (controller_run w config name parameters timeout) = Normal tt /\
        out s' = out (waiting w task task_id timeout) ++ [Bus_disconnect]
                 ++ report (last (terminal_events task_id (w_inbox w)) first)
                 ++ [Pprint updated] /\
        finished_event s' = removelast (terminal_events task_id (w_inbox w)) /\
        timed_out (client s') = false /\ connected (client s') = false
    | TimesOut =>
        result w (controller_run w config name parameters timeout) = Normal tt /\
        out s' = out (waiting w task task_id timeout)
                 ++ [Log ERROR (String.append "Plan did not complete within "
                                 (String.append (str_timeout timeout) " seconds"));
                     Bus_disconnect] /\
        timed_out (client s') = true /\ connected (client s') = false
    | Breaks msg =>
        result w (controller_run w config name parameters timeout)
        = Raised (BlueskyRemoteError msg) /\
        out s' = out (waiting w task task_id timeout) ++ [Bus_disconnect] /\
        connected (client s') = false
    | NeverEnds =>
        result w (controller_run w config name parameters timeout) = Blocked /\
        out s' = out (waiting w task task_id timeout) /\
        connected (client s') = true
    end.
Proof.
  intros Hs Hj Ht Hc Hn Hu. eexists. split; [reflexivity|].
  py_run. rewrite Hs. py_run. rewrite Hj. py_run. rewrite Ht. py_run.
  rewrite Hc. py_run. rewrite Hn. py_run. rewrite Hu. py_run.
  change (set_out _ (set_out _ (set_client _ _)))
    with (waiting w task task_id timeout).
  assert (Htr : tracking task_id (waiting w task task_id timeout))
    by (split; reflexivity).
  destruct (await_spec task_id (is_bounded timeout) (w_inbox w) _ Htr)
    as (Ho & Hcn & Ht' & Hd & He).
  cbn [completion client waiting] in He.
  destruct (await (is_bounded timeout) (w_inbox w) (waiting w task task_id timeout))
    as [s2 r2] eqn:Ea.
  cbn [fst snd] in *.
  destruct (ending_of task_id (is_bounded timeout) (w_inbox w)) as [first| |msg|] eqn:Ee.
  - destruct He as [-> Hto]. rewrite Hto.
    destruct (bus_exit_tracking task_id s2 Ht') as (Hxr & Hxo & Hxt & Hxc & Hxd).
    destruct (bus_exit s2) as [s3 r3]. cbn [fst snd] in *. subst r3.
    destruct (ending_completes _ _ _ _ Ee) as [later Hl].
    rewrite Hd in Hxd. cbn [finished_event waiting app] in Hxd.
    rewrite Hl in Hxd.
    rewrite (deque_pop_last _ first later Hxd).
    rewrite process_event_after_finished_report.
    cbn [fst snd out client finished_event set_out set_finished_event].
    rewrite Hl, Hxo, Ho, Hxt, Hto, <- !app_assoc.
    repeat split; try reflexivity. exact Hxc.
  - destruct He as [-> Hto]. rewrite Hto.
    assert (Htl : tracking task_id
                    (set_out (out s2 ++
                       [Log ERROR (String.append "Plan did not complete within "
                          (String.append (str_timeout timeout) " seconds"))]) s2))
      by exact Ht'.
    destruct (bus_exit_tracking task_id _ Htl) as (Hxr & Hxo & Hxt & Hxc & _).
    match goal with |- context [bus_exit ?s] => destruct (bus_exit s) as [s3 r3] end.
    cbn [fst snd] in *. subst r3. cbn [fst snd out client set_out] in *.
    rewrite Hxo, Hxt, Hxc, Ho, Hto, <- app_assoc.
    repeat split; reflexivity.
  - rewrite He.
    destruct (bus_exit_tracking task_id s2 Ht') as (Hxr & Hxo & Hxt & Hxc & Hxd).
    destruct (bus_exit s2) as [s3 r3]. cbn [fst snd] in *. subst r3.
    cbn [fst snd]. rewrite Hxo, Hxc, Ho. repeat split; reflexivity.
  - rewrite He. cbn [fst snd]. rewrite Ho, Hcn. repeat split; reflexivity.
Qed.
Lemma report_no_request (e : WorkerEvent) (a : action) :
  In a (report e) -> is_request a = false.
Proof.
  unfold report. destruct (errors e) as [|x xs]; [destruct (warnings e) as [|y ys]|];
    cbn [In]; intros [H|H]; subst; try reflexivity; try contradiction;
    apply in_map_iff in H; destruct H as (m & <- & _); reflexivity.
Qed.

Ltac settle_in :=
  repeat match goal with
         | H : In _ (_ :: _) |- _ =>
             destruct H as [H|H];
             [subst; try reflexivity; try discriminate|]
         | H : In _ [] |- _ => contradiction H
         | H : In _ (_ ++ _) |- _ => apply in_app_or in H; destruct H as [H|H]
         | H : In _ (report _) |- _ => apply report_no_request in H; exact H
         end.

Ltac find_created :=
  repeat match goal with
         | H : In _ (_ :: _) |- _ =>
             destruct H as [H|H];
             [first [discriminate H | injection H as ->; reflexivity]|]
         | H : In _ [] |- _ => contradiction H
         | H : In _ (_ ++ _) |- _ => apply in_app_or in H; destruct H as [H|H]
         | H : In _ (report _) |- _ =>
             apply report_no_request in H; discriminate H
         end.

(** Every run of [controller run] either never starts a task, or begins with
    the registration, the connection, the subscription and the start command
    in this order and sends no request after them. *)
Lemma run_trace_shape (w : World) (config : ApplicationConfig) (name : string)
  (parameters : option string) (timeout : option float) :
  (forall a, In a (trace w (controller_run w config name parameters timeout)) ->
             match a with
             | Call_update_worker_task _ | Bus_subscribe_to_topics _
             | Bus_wait_for_complete _ | Log _ _ => False
             | _ => True
             end) \/
  exists task task_id rest,
    trace w (controller_run w config name parameters timeout)
    = [Call_create_task task; Bus_connect; Bus_subscribe_to_topics task_id;
       Call_update_worker_task task_id] ++ rest /\
    forall a, In a rest -> is_request a = false.
Proof.
  destruct (stomp config) as [sc|] eqn:Hs.
  2:{ left. py_run. rewrite Hs. py_run. intros a Ha. settle_in; exact I. }
  destruct (json_loads (py_or parameters "{}")) as [e|v] eqn:Hj.
  { left. py_run. rewrite Hs. py_run. rewrite Hj. py_run.
    destruct e; py_run; intros a Ha; settle_in; exact I. }
  destruct (Task_init name v) as [e|task] eqn:Ht.
  { left. py_run. rewrite Hs. py_run. rewrite Hj. py_run. rewrite Ht. py_run.
    destruct e; py_run; intros a Ha; settle_in; exact I. }
  destruct (w_create_task w task) as [e|task_id] eqn:Hc.
  { left. py_run. rewrite Hs. py_run. rewrite Hj. py_run. rewrite Ht. py_run.
    rewrite Hc. py_run.
    destruct e; py_run; intros a Ha; settle_in; exact I. }
  destruct (w_connect w) as [e|[]] eqn:Hn.
  { left. py_run. rewrite Hs. py_run. rewrite Hj. py_run. rewrite Ht. py_run.
    rewrite Hc. py_run. rewrite Hn. py_run.
    destruct e; py_run; intros a Ha; settle_in; exact I. }
  right. exists task, task_id.
  destruct (w_update_worker_task w task_id) as [e|updated] eqn:Hu.
  - py_run. rewrite Hs. py_run. rewrite Hj. py_run. rewrite Ht. py_run.
    rewrite Hc. py_run. rewrite Hn. py_run. rewrite Hu. py_run.
    match goal with
    | |- context [bus_exit ?s] =>
        assert (Htr : tracking task_id s) by (split; reflexivity);
        destruct (bus_exit_tracking task_id s Htr) as (Hxr & Hxo & _);
        destruct (bus_exit s) as [s3 r3]
    end.
    cbn [fst snd out set_out set_client] in *. subst r3.
    destruct e; py_run; rewrite ?Hxo; eexists; (split; [reflexivity|]);
      intros a Ha; settle_in.
  - destruct (run_after_start w config name parameters timeout sc v task task_id
                updated Hs Hj Ht Hc Hn Hu) as (s' & Hs' & Hend).
    unfold trace. rewrite Hs'.
    destruct (ending_of task_id (is_bounded timeout) (w_inbox w)) as [first| |msg|].
    + destruct Hend as (_ & Ho & _). rewrite Ho. cbn [out waiting app].
      eexists; split; [reflexivity|]. intros a Ha. settle_in.
    + destruct Hend as (_ & Ho & _). rewrite Ho. cbn [out waiting app].
      eexists; split; [reflexivity|]. intros a Ha. settle_in.
    + destruct Hend as (_ & Ho & _). rewrite Ho. cbn [out waiting app].
      eexists; split; [reflexivity|]. intros a Ha. settle_in.
    + destruct Hend as (_ & Ho & _). rewrite Ho. cbn [out waiting app].
      eexists; split; [reflexivity|]. intros a Ha. settle_in.
Qed.

Lemma last_nonempty {A} (l : list A) (x d1 d2 : A) :
  last (x :: l) d1 = last (x :: l) d2.
Proof.
  revert x. induction l as [|y l IH]; intros x; [reflexivity|].
  change (last (y :: l) d1 = last (y :: l) d2). apply IH.
Qed.

Lemma created_task_is_constructed (w : World) (config : ApplicationConfig)
  (name : string) (parameters : option string) (timeout : option float)
  (task : Task) :
  In (Call_create_task task)
     (trace w (controller_run w config name parameters timeout)) ->
  exists v, json_loads (py_or parameters "{}") = inr v /\
            Task_init name v = inr task.
Proof.
  destruct (stomp config) as [sc|] eqn:Hs.
  2:{ py_run. rewrite Hs. py_run. intros Ha. find_created. }
  destruct (json_loads (py_or parameters "{}")) as [e|v] eqn:Hj.
  { py_run. rewrite Hs. py_run. rewrite Hj. py_run.
    destruct e; py_run; intros Ha; find_created. }
  destruct (Task_init name v) as [e|task'] eqn:Ht.
  { py_run. rewrite Hs. py_run. rewrite Hj. py_run. rewrite Ht. py_run.
    destruct e; py_run; intros Ha; find_created. }
  intros Hin. exists v. split; [reflexivity|]. rewrite Ht. f_equal.
  revert Hin.
  destruct (w_create_task w task') as [e|task_id] eqn:Hc.
  { py_run. rewrite Hs. py_run. rewrite Hj. py_run. rewrite Ht. py_run.
    rewrite Hc. py_run. destruct e; py_run; intros Ha; find_created. }
  destruct (w_connect w) as [e|[]] eqn:Hn.
  { py_run. rewrite Hs. py_run. rewrite Hj. py_run. rewrite Ht. py_run.
    rewrite Hc. py_run. rewrite Hn. py_run.
    destruct e; py_run; intros Ha; find_created. }
  destruct (w_update_worker_task w task_id) as [e|updated] eqn:Hu.
  - py_run. rewrite Hs. py_run. rewrite Hj. py_run. rewrite Ht. py_run.
    rewrite Hc. py_run. rewrite Hn. py_run. rewrite Hu. py_run.
    match goal with
    | |- context [bus_exit ?s] =>
        assert (Htr : tracking task_id s) by (split; reflexivity);
        destruct (bus_exit_tracking task_id s Htr) as (Hxr & Hxo & _);
        destruct (bus_exit s) as [s3 r3]
    end.
    cbn [fst snd out set_out set_client] in *. subst r3.
    destruct e; py_run; rewrite ?Hxo; cbn [app]; intros Ha; find_created.
  - destruct (run_after_start w config name parameters timeout sc v task' task_id
                updated Hs Hj Ht Hc Hn Hu) as (s' & Hs' & Hend).
    unfold trace. rewrite Hs'.
    destruct (ending_of task_id (is_bounded timeout) (w_inbox w)) as [first| |msg|];
      destruct Hend as (_ & Ho & _); rewrite Ho; cbn [out waiting app];
      intros Ha; find_created.
Qed.

(** What the handler leaves in the deque: the terminal events, in the order
    they came. *)
Lemma for_each_store (es : list WorkerEvent) (s : session) :
  for_each es store_finished_event s =
  (set_finished_event (finished_event s ++ filter is_complete es) s, Normal tt).
Proof.
  revert s. induction es as [|e es IH]; intros s; cbn [for_each filter].
  - rewrite app_nil_r. destruct s; reflexivity.
  - unfold bind. unfold store_finished_event at 1.
    destruct (is_complete e).
    + rewrite IH. cbn [finished_event set_finished_event].
      rewrite <- app_assoc. reflexivity.
    + unfold ret. rewrite IH. reflexivity.
Qed.

(** C2 (as amended).  Whatever events the bus hands to [store_finished_event],
    starting from the empty deque, every terminal one is appended; when there
    is at least one, [process_event_after_finished(finished_event.pop(), ...)]
    reports the last terminal event that was stored, and the earlier ones stay
    behind in the deque. *)
Theorem last_stored_terminal_event_is_reported (es : list WorkerEvent)
  (s : session) (d : WorkerEvent) :
  finished_event s = [] ->
  filter is_complete es <> [] ->
  bind (for_each es store_finished_event)
    (fun _ => bind deque_pop process_event_after_finished) s
  = (set_out (out s ++ report (last (filter is_complete es) d))
       (set_finished_event (removelast (filter is_complete es)) s),
     Normal tt).
Proof.
  intros Hd Hne. unfold bind at 1. rewrite for_each_store, Hd. cbn [app].
  destruct (filter is_complete es) as [|e later] eqn:Ef; [congruence|].
  unfold bind.
  rewrite (deque_pop_last _ e later) by reflexivity.
  rewrite process_event_after_finished_report.
  cbn [out set_finished_event set_out finished_event client inbox].
  rewrite (last_nonempty later e e d). reflexivity.
Qed.

(** C3.  When the construction of the task or [create_task] raises
    [ValidationError], the command prints the validation message as its last
    action and returns; the only request it may have sent is [create_task],
    and no [update_worker_task] is ever sent. *)
Theorem validation_error_stops_before_start (w : World)
  (config : ApplicationConfig) (name : string) (parameters : option string)
  (timeout : option float) (sc : StompConfig) (v : json) (msg : string)
  (requests : list action) :
  stomp config = Some sc ->
  json_loads (py_or parameters "{}") = inr v ->
  (Task_init name v = inl (ValidationError msg) /\ requests = []) \/
  (exists task, Task_init name v = inr task /\
                w_create_task w task = inl (ValidationError msg) /\
                requests = [Call_create_task task]) ->
  result w (controller_run w config name parameters timeout) = Normal tt /\
  trace w (controller_run w config name parameters timeout)
  = requests ++
    [Pprint (JStr (String.append "failed to validate the task parameters, , error: " msg))] /\
  forall task_id,
    ~ In (Call_update_worker_task task_id)
         (trace w (controller_run w config name parameters timeout)).
Proof.
  intros Hs Hj [[Ht ->]|(task & Ht & Hc & ->)].
  - py_run. rewrite Hs. py_run. rewrite Hj. py_run. rewrite Ht. py_run.
    repeat split. intros task_id [H|[]]; discriminate.
  - py_run. rewrite Hs. py_run. rewrite Hj. py_run. rewrite Ht. py_run.
    rewrite Hc. py_run.
    repeat split. intros task_id [H|[H|[]]]; discriminate.
Qed.

(** C4.  In every run of [controller run], whatever the world answers, a
    start command [update_worker_task] for a task id comes after
    [subscribe_to_topics] for that same id. *)
Theorem subscription_precedes_start (w : World) (config : ApplicationConfig)
  (name : string) (parameters : option string) (timeout : option float)
  (before after : list action) (task_id : string) :
  trace w (controller_run w config name parameters timeout)
  = before ++ Call_update_worker_task task_id :: after ->
  In (Bus_subscribe_to_topics task_id) before.
Proof.
  intros H.
  destruct (run_trace_shape w config name parameters timeout)
    as [Hnone|(task & tid & rest & Ht & Hrest)].
  - exfalso. apply (Hnone (Call_update_worker_task task_id)).
    rewrite H. apply in_or_app. right. left. reflexivity.
  - rewrite Ht in H. clear Ht.
    destruct before as [|a1 before]; [discriminate H|].
    destruct before as [|a2 before]; [discriminate H|].
    destruct before as [|a3 before]; [discriminate H|].
    injection H as H1 H2 H3 H. subst a1 a2 a3.
    destruct before as [|a4 before].
    + injection H as Hid _. subst tid. right. right. left. reflexivity.
    + injection H as _ H. exfalso.
      assert (Hin : In (Call_update_worker_task task_id) rest).
      { rewrite H. apply in_or_app. right. left. reflexivity. }
      apply Hrest in Hin. discriminate Hin.
Qed.

(** C5.  When the task was registered and started and the wait reaches its
    bound before a terminal event of the task is buffered, the command ends
    normally with [timed_out] set; it logs the bound at error level and
    disconnects, and sends nothing else after the wait: no request goes to the
    worker on that path. *)
Theorem timeout_is_reported_and_nothing_is_sent (w : World)
  (config : ApplicationConfig) (name : string) (parameters : option string)
  (timeout : option float) (sc : StompConfig) (v : json) (task : Task)
  (task_id : string) (updated : json) :
  stomp config = Some sc ->
  json_loads (py_or parameters "{}") = inr v ->
  Task_init name v = inr task ->
  w_create_task w task = inr task_id ->
  w_connect w = inr tt ->
  w_update_worker_task w task_id = inr updated ->
  ending_of task_id (is_bounded timeout) (w_inbox w) = TimesOut ->
  result w (controller_run w config name parameters timeout) = Normal tt /\
  timed_out (client (fst (controller_run w config name parameters timeout (start w))))
  = true /\
  trace w (controller_run w config name parameters timeout)
  = [Call_create_task task; Bus_connect; Bus_subscribe_to_topics task_id;
     Call_update_worker_task task_id; Bus_wait_for_complete timeout;
     Log ERROR (String.append "Plan did not complete within "
                 (String.append (str_timeout timeout) " seconds"));
     Bus_disconnect].
Proof.
  intros Hs Hj Ht Hc Hn Hu He.
  destruct (run_after_start w config name parameters timeout sc v task task_id
              updated Hs Hj Ht Hc Hn Hu) as (s' & Hs' & Hend).
  rewrite He in Hend. destruct Hend as (Hr & Ho & Hto & _).
  unfold trace. rewrite Hs'. repeat split; assumption.
Qed.


(** C9.  For every event whose errors and warnings are both non-empty, the
    post-completion handling logs the header and then one error-level line per
    error, in order, and nothing at warning level. *)
Theorem errors_suppress_warnings (e : WorkerEvent) (s : session) :
  errors e <> [] ->
  warnings e <> [] ->
  process_event_after_finished e s
  = (set_out (out s ++ Log INFO (String.append "Failed with errors: " nl)
                         :: map (Log ERROR) (errors e)) s, Normal tt) /\
  length (Log INFO (String.append "Failed with errors: " nl)
            :: map (Log ERROR) (errors e)) = S (length (errors e)) /\
  forall warning,
    ~ In (Log WARN warning)
         (Log INFO (String.append "Failed with errors: " nl)
            :: map (Log ERROR) (errors e)).
Proof.
  intros He Hw. rewrite process_event_after_finished_report.
  unfold report. destruct (errors e) as [|x xs]; [congruence|].
  split; [reflexivity|]. split; [cbn [length]; rewrite length_map; reflexivity|].
  intros warning [H|H]; [discriminate H|].
  apply in_map_iff in H. destruct H as (m & H & _). discriminate H.
Qed.

(** Without a parameters argument, or with an empty one, the command runs
    as with the literal ["{}"], and a task it submits can only be the one
    [Task] builds from the name and the empty mapping. *)
Lemma missing_parameters_run_as_empty_object (w : World)
  (config : ApplicationConfig) (name : string) (parameters : option string)
  (timeout : option float) (task : Task) :
  json_loads "{}" = inr (JObj []) ->
  parameters = None \/ parameters = Some "" ->
  (forall s,
     controller_run w config name parameters timeout s
     = controller_run w config name (Some "{}") timeout s) /\
  (In (Call_create_task task)
      (trace w (controller_run w config name parameters timeout)) ->
   Task_init name (JObj []) = inr task).
Proof.
  intros Hj Hp.
  assert (Ep : py_or parameters "{}" = "{}") by (destruct Hp; subst; reflexivity).
  split.
  - intros s. destruct Hp; subst; reflexivity.
  - intros Hin.
    destruct (created_task_is_constructed w config name parameters timeout task Hin)
      as (v' & Hv & Hk).
    rewrite Ep, Hj in Hv. injection Hv as <-. exact Hk.
Qed.

(** Once the parameters are parsed and the task is built, the first thing
    [controller run] does towards the outside is to submit that task, and it
    submits no task a second time. *)
Lemma run_begins_with_registration (w : World) (config : ApplicationConfig)
  (name : string) (parameters : option string) (timeout : option float)
  (sc : StompConfig) (v : json) (task : Task) :
  stomp config = Some sc ->
  json_loads (py_or parameters "{}") = inr v ->
  Task_init name v = inr task ->
  exists rest,
    trace w (controller_run w config name parameters timeout)
    = Call_create_task task :: rest /\
    forall other, ~ In (Call_create_task other) rest.
Proof.
  intros Hs Hj Ht.
  destruct (w_create_task w task) as [e|task_id] eqn:Hc.
  { py_run. rewrite Hs. py_run. rewrite Hj. py_run. rewrite Ht. py_run.
    rewrite Hc. py_run.
    destruct e; py_run; eexists; (split; [reflexivity|]);
      intros other Ha; find_created. }
  destruct (w_connect w) as [e|[]] eqn:Hn.
  { py_run. rewrite Hs. py_run. rewrite Hj. py_run. rewrite Ht. py_run.
    rewrite Hc. py_run. rewrite Hn. py_run.
    destruct e; py_run; eexists; (split; [reflexivity|]);
      intros other Ha; find_created. }
  destruct (w_update_worker_task w task_id) as [e|updated] eqn:Hu.
  - py_run. rewrite Hs. py_run. rewrite Hj. py_run. rewrite Ht. py_run.
    rewrite Hc. py_run. rewrite Hn. py_run. rewrite Hu. py_run.
    match goal with
    | |- context [bus_exit ?s] =>
        assert (Htr : tracking task_id s) by (split; reflexivity);
        destruct (bus_exit_tracking task_id s Htr) as (Hxr & Hxo & _);
        destruct (bus_exit s) as [s3 r3]
    end.
    cbn [fst snd out set_out set_client] in *. subst r3.
    destruct e; py_run; rewrite ?Hxo; cbn [app]; eexists;
      (split; [reflexivity|]); intros other Ha; find_created.
  - destruct (run_after_start w config name parameters timeout sc v task task_id
                updated Hs Hj Ht Hc Hn Hu) as (s' & Hs' & Hend).
    unfold trace. rewrite Hs'.
    destruct (ending_of task_id (is_bounded timeout) (w_inbox w)) as [first| |msg|];
      destruct Hend as (_ & Ho & _); rewrite Ho; cbn [out waiting app];
      eexists; (split; [reflexivity|]); intros other Ha; find_created.
Qed.

(** C10.  When [controller run] is invoked without a parameters argument, or
    with an empty one, in a configuration that has a [stomp] section: the
    command runs exactly as with the literal ["{}"]; [json.loads] reading
    ["{}"] as the empty mapping, the task [Task] builds from the name and the
    empty mapping is submitted with [create_task] as the first action of the
    run, and no other task is ever submitted in it. *)
Theorem missing_parameters_mean_empty_mapping (w : World)
  (config : ApplicationConfig) (name : string) (parameters : option string)
  (timeout : option float) (sc : StompConfig) (task : Task) :
  json_loads "{}" = inr (JObj []) ->
  parameters = None \/ parameters = Some "" ->
  stomp config = Some sc ->
  Task_init name (JObj []) = inr task ->
  (forall s,
     controller_run w config name parameters timeout s
     = controller_run w config name (Some "{}") timeout s) /\
  (exists rest,
     trace w (controller_run w config name parameters timeout)
     = Call_create_task task :: rest /\
     forall other, ~ In (Call_create_task other) rest) /\
  (forall other,
     In (Call_create_task other)
        (trace w (controller_run w config name parameters timeout)) ->
     other = task).
Proof.
  intros Hj Hp Hs Ht.
  assert (Ep : py_or parameters "{}" = "{}") by (destruct Hp; subst; reflexivity).
  assert (Hj' : json_loads (py_or parameters "{}") = inr (JObj []))
    by (rewrite Ep; exact Hj).
  destruct (run_begins_with_registration w config name parameters timeout sc
              (JObj []) task Hs Hj' Ht) as (rest & Htr & Hrest).
  split; [|split].
  - apply (missing_parameters_run_as_empty_object w config name parameters
             timeout task Hj Hp).
  - exists rest. split; assumption.
  - intros other Hin. rewrite Htr in Hin. destruct Hin as [H|H].
    + injection H as <-. reflexivity.
    + exfalso. exact (Hrest other H).
Qed.

End CliFacts.

(** ** The bridge *)

Section ServiceFacts.

Import Service.

Context {L : Lib}.

(** C6.  Each of the three replying handlers, called with a message context
    that has no reply destination, ends in an [AssertionError] and sends
    nothing. *)
Theorem missing_reply_destination_is_fatal (h : handler)
  (mc : MessageContext) (body : json) (s : state) :
  reply_destination mc = None ->
  snd (apply_handler h mc body s) = Raised AssertionError /\
  sent (fst (apply_handler h mc body s)) = sent s.
Proof.
  intros H. destruct h; cbn [apply_handler];
    unfold _on_run_request, _get_plans, _get_devices, reply, call, bind,
      new_uuid, submit_task, get_ctx, raise;
    rewrite H; split; reflexivity.
Qed.

(** C7.  [uuid1] never giving the same text twice, a run-request with a reply
    destination draws an id that was not drawn before, hands the task to the
    worker under that id, and sends that id to the reply destination. *)
Theorem run_request_replies_with_fresh_id (mc : MessageContext) (task : json)
  (s : state) (dest : string) :
  (forall m n, uuid1 m = uuid1 n -> m = n) ->
  reply_destination mc = Some dest ->
  exists id,
    snd (_on_run_request mc task s) = Normal tt /\
    ~ In id (issued s) /\
    issued (fst (_on_run_request mc task s)) = issued s ++ [id] /\
    submitted (fst (_on_run_request mc task s)) = submitted s ++ [(id, task)] /\
    sent (fst (_on_run_request mc task s)) = sent s ++ [(dest, JStr id)].
Proof.
  intros Hinj H. exists (uuid1 (clock s)).
  unfold _on_run_request, reply, call, bind, new_uuid, submit_task, send, issued.
  rewrite H. cbn [fst snd clock submitted sent].
  repeat split.
  - intros Hin. apply in_map_iff in Hin. destruct Hin as (n & Hn & Hin).
    apply Hinj in Hn. subst n. apply in_seq in Hin. lia.
  - rewrite seq_S, map_app. reflexivity.
Qed.

End ServiceFacts.

(** ** Worked runs *)

Section CliRuns.

Import Cli Demo.

#[local] Existing Instance Demo.lib.

(** C2: two terminal events of the tracked task reach the handler, [passed]
    first and [failed] second; the report is that of [failed], not that of the
    first one. *)
Lemma first_terminal_event_is_not_the_one_reported :
  filter is_complete [passed; failed] = [passed; failed] /\
  out (fst (bind (for_each [passed; failed] store_finished_event)
              (fun _ => bind deque_pop process_event_after_finished)
              (start (world []))))
  = report failed /\
  report failed <> report passed.
Proof. repeat split; try reflexivity. discriminate. Qed.

Lemma last_stored_terminal_event_is_reported_witness :
  bind (for_each [running; passed; failed] store_finished_event)
    (fun _ => bind deque_pop process_event_after_finished) (start (world []))
  = (set_out (out (start (world []))
              ++ report (last (filter is_complete [running; passed; failed]) passed))
       (set_finished_event
          (removelast (filter is_complete [running; passed; failed]))
          (start (world []))),
     Normal tt).
Proof.
  apply (last_stored_terminal_event_is_reported
           [running; passed; failed] (start (world [])) passed).
  - reflexivity.
  - vm_compute. discriminate.
Defined.

Lemma validation_error_stops_before_start_witness :
  result (rejecting []) (controller_run (rejecting []) config "sleep" None (Some five))
  = Normal tt /\
  trace (rejecting []) (controller_run (rejecting []) config "sleep" None (Some five))
  = [Call_create_task {| task_name := "sleep"; task_params := [] |}]
    ++ [Pprint (JStr (String.append
                        "failed to validate the task parameters, , error: "
                        "time: field required"))] /\
  forall task_id,
    ~ In (Call_update_worker_task task_id)
         (trace (rejecting [])
            (controller_run (rejecting []) config "sleep" None (Some five))).
Proof.
  apply (validation_error_stops_before_start (rejecting []) config "sleep" None
           (Some five) {| host := "localhost"; port := 61613%N |} (JObj [])
           "time: field required").
  - reflexivity.
  - reflexivity.
  - right. exists {| task_name := "sleep"; task_params := [] |}.
    repeat split; reflexivity.
Defined.

Lemma subscription_precedes_start_witness :
  In (Bus_subscribe_to_topics "t1")
     [Call_create_task {| task_name := "sleep"; task_params := [] |};
      Bus_connect; Bus_subscribe_to_topics "t1"].
Proof.
  apply (subscription_precedes_start (world [Deliver (Worker passed)]) config
           "sleep" None (Some five)
           [Call_create_task {| task_name := "sleep"; task_params := [] |};
            Bus_connect; Bus_subscribe_to_topics "t1"]
           ([Bus_wait_for_complete (Some five); Bus_disconnect]
              ++ report passed ++ [Pprint accepted])
           "t1").
  reflexivity.
Defined.

Lemma timeout_is_reported_and_nothing_is_sent_witness :
  result (world [Deliver (Worker running); Elapse; Deliver (Worker passed)])
    (controller_run (world [Deliver (Worker running); Elapse; Deliver (Worker passed)])
       config "sleep" None (Some five))
  = Normal tt /\
  timed_out (client (fst (controller_run
       (world [Deliver (Worker running); Elapse; Deliver (Worker passed)])
       config "sleep" None (Some five)
       (start (world [Deliver (Worker running); Elapse; Deliver (Worker passed)])))))
  = true /\
  trace (world [Deliver (Worker running); Elapse; Deliver (Worker passed)])
    (controller_run (world [Deliver (Worker running); Elapse; Deliver (Worker passed)])
       config "sleep" None (Some five))
  = [Call_create_task {| task_name := "sleep"; task_params := [] |};
     Bus_connect; Bus_subscribe_to_topics "t1"; Call_update_worker_task "t1";
     Bus_wait_for_complete (Some five);
     Log ERROR (String.append "Plan did not complete within "
                 (String.append (str_timeout (Some five)) " seconds"));
     Bus_disconnect].
Proof.
  apply (timeout_is_reported_and_nothing_is_sent
           (world [Deliver (Worker running); Elapse; Deliver (Worker passed)])
           config "sleep" None (Some five)
           {| host := "localhost"; port := 61613%N |} (JObj [])
           {| task_name := "sleep"; task_params := [] |} "t1" accepted);
    reflexivity.
Defined.



Lemma errors_suppress_warnings_witness :
  process_event_after_finished failed_and_warned (start (world []))
  = (set_out (out (start (world []))
              ++ Log INFO (String.append "Failed with errors: " nl)
                 :: map (Log ERROR) (errors failed_and_warned))
       (start (world [])), Normal tt) /\
  length (Log INFO (String.append "Failed with errors: " nl)
            :: map (Log ERROR) (errors failed_and_warned))
  = S (length (errors failed_and_warned)) /\
  forall warning,
    ~ In (Log WARN warning)
         (Log INFO (String.append "Failed with errors: " nl)
            :: map (Log ERROR) (errors failed_and_warned)).
Proof.
  apply (errors_suppress_warnings failed_and_warned (start (world [])));
    vm_compute; discriminate.
Defined.

Lemma missing_parameters_mean_empty_mapping_witness :
  (forall s,
     controller_run (world [Deliver (Worker passed)]) config "sleep" None (Some five) s
     = controller_run (world [Deliver (Worker passed)]) config "sleep" (Some "{}")
         (Some five) s) /\
  (exists rest,
     trace (world [Deliver (Worker passed)])
       (controller_run (world [Deliver (Worker passed)]) config "sleep" None
          (Some five))
     = Call_create_task {| task_name := "sleep"; task_params := [] |} :: rest /\
     forall other, ~ In (Call_create_task other) rest) /\
  (forall other,
     In (Call_create_task other)
        (trace (world [Deliver (Worker passed)])
           (controller_run (world [Deliver (Worker passed)]) config "sleep" None
              (Some five))) ->
     other = {| task_name := "sleep"; task_params := [] |}).
Proof.
  apply (missing_parameters_mean_empty_mapping (world [Deliver (Worker passed)])
           config "sleep" None (Some five)
           {| host := "localhost"; port := 61613%N |}
           {| task_name := "sleep"; task_params := [] |}).
  - reflexivity.
  - left. reflexivity.
  - reflexivity.
  - reflexivity.
Defined.

End CliRuns.

Section ServiceRuns.

Import Service DemoService.

#[local] Existing Instance DemoService.lib.

Lemma uuid_of_injective (m n : nat) : uuid_of m = uuid_of n -> m = n.
Proof.
  unfold uuid_of. cbn [String.append]. intros H.
  injection H as H.
  apply (f_equal NilEmpty.uint_of_string) in H.
  rewrite !NilEmpty.usu in H. injection H as H.
  apply (f_equal Nat.of_uint) in H.
  rewrite !DecimalNat.Unsigned.of_to in H. exact H.
Qed.

(** C1: with two plans and two devices registered, a devices query gets the
    plan descriptors, not the device descriptors. *)
Lemma devices_query_is_answered_with_plans :
  sent (fst (on_message "worker.devices" query (JStr "") (serving registry)))
  = [("reply-q", JArr [JObj [("name", JStr "sleep")];
                       JObj [("name", JStr "count")]])] /\
  map _display_device (map snd (devices registry))
  = [JObj [("name", JStr "x");
           ("protocols", JArr [JStr "Movable"; JStr "Readable"; JStr "Stageable"])];
     JObj [("name", JStr "UNKNOWN"); ("protocols", JArr [JStr "Movable"])]] /\
  sent (fst (on_message "worker.devices" query (JStr "") (serving registry)))
  <> [("reply-q", JArr (map _display_device (map snd (devices registry))))].
Proof. repeat split; try reflexivity. vm_compute. discriminate. Qed.

Lemma missing_reply_destination_is_fatal_witness :
  snd (apply_handler h_on_run_request orphan sleep_task (serving registry))
  = Raised AssertionError /\
  sent (fst (apply_handler h_on_run_request orphan sleep_task (serving registry)))
  = sent (serving registry).
Proof.
  apply (missing_reply_destination_is_fatal h_on_run_request orphan sleep_task
           (serving registry)).
  reflexivity.
Defined.

Lemma run_request_replies_with_fresh_id_witness :
  exists id,
    snd (_on_run_request request sleep_task (serving registry)) = Normal tt /\
    ~ In id (issued (serving registry)) /\
    issued (fst (_on_run_request request sleep_task (serving registry)))
    = issued (serving registry) ++ [id] /\
    submitted (fst (_on_run_request request sleep_task (serving registry)))
    = submitted (serving registry) ++ [(id, sleep_task)] /\
    sent (fst (_on_run_request request sleep_task (serving registry)))
    = sent (serving registry) ++ [("reply-q", JStr id)].
Proof.
  apply (run_request_replies_with_fresh_id request sleep_task (serving registry)
           "reply-q").
  - exact uuid_of_injective.
  - reflexivity.
Defined.

End ServiceRuns.

(** ** More on the controller *)

Section CliMore.

Import Cli.

Context {L : Lib}.

Ltac py_go :=
  cbv beta iota zeta delta
    [run_plan controller_run controller_command body_of check_connection
     call try_except with_ rest bus_enter subscribe_to_topics
     subscribe_to_all_events wait_for_complete get_timed_out listen_to_events
     input get_plans get_devices get_state pause resume abort stop schema
     start_application bind ret lift raise py_return tell pprint print log
     start result trace isinstance_ConnectionError isinstance_ValueError];
  cbn [out client finished_event inbox set_out set_client set_finished_event
       set_inbox with_connected with_tracked with_listening with_timed_out
       connected tracked listening completion timed_out new_client app fst snd].

(** X1.  Handing a sequence of events to [store_finished_event] appends the
    terminal ones to the deque, in the order they came, and touches nothing
    else: a non-terminal event is dropped. *)
Theorem only_terminal_events_are_stored (es : list WorkerEvent) (s : session) :
  snd (for_each es store_finished_event s) = Normal tt /\
  finished_event (fst (for_each es store_finished_event s))
  = finished_event s ++ filter is_complete es /\
  out (fst (for_each es store_finished_event s)) = out s /\
  client (fst (for_each es store_finished_event s)) = client s /\
  inbox (fst (for_each es store_finished_event s)) = inbox s.
Proof. rewrite for_each_store. repeat split. Qed.

(** X2.  Storing a terminal event and popping the deque right away gives
    that event back and leaves the session as it was. *)
Theorem store_then_pop (e : WorkerEvent) (s : session) :
  is_complete e = true ->
  bind (store_finished_event e) (fun _ => deque_pop) s = (s, Normal e).
Proof.
  intros H. unfold bind, store_finished_event, deque_pop. rewrite H.
  cbn [finished_event set_finished_event].
  rewrite rev_app_distr. cbn [rev app]. rewrite rev_involutive.
  destruct s; reflexivity.
Qed.

(** X3.  An event with no errors and at least one warning is reported as
    passed with warnings: the header, then one warning-level line per warning,
    in order; ["Plan passed"] is not logged. *)
Theorem warnings_are_reported (e : WorkerEvent) (s : session) :
  errors e = [] ->
  warnings e <> [] ->
  process_event_after_finished e s
  = (set_out (out s ++ Log INFO (String.append "Passed with warnings: " nl)
                         :: map (Log WARN) (warnings e)) s, Normal tt) /\
  ~ In (Log INFO "Plan passed")
       (Log INFO (String.append "Passed with warnings: " nl)
          :: map (Log WARN) (warnings e)).
Proof.
  intros He Hw. rewrite process_event_after_finished_report.
  unfold report. rewrite He. destruct (warnings e) as [|x xs]; [congruence|].
  split; [reflexivity|].
  intros [H|H]; [discriminate H|].
  apply in_map_iff in H. destruct H as (m & H & _). discriminate H.
Qed.

(** X4.  The report depends on the errors and the warnings of the event
    only: its state and its task reference are not looked at, so an event that
    is not terminal is reported like a terminal one. *)
Theorem report_ignores_state_and_task (e1 e2 : WorkerEvent) (s : session) :
  errors e1 = errors e2 ->
  warnings e1 = warnings e2 ->
  process_event_after_finished e1 s = process_event_after_finished e2 s.
Proof.
  intros He Hw. rewrite !process_event_after_finished_report.
  unfold report. rewrite He, Hw. reflexivity.
Qed.

(** X5.  Without a [stomp] section in the configuration, [controller run]
    prints the error and returns: it parses nothing, sends no request and
    opens no connection. *)
Theorem run_without_stomp (w : World) (config : ApplicationConfig)
  (name : string) (parameters : option string) (timeout : option float) :
  stomp config = None ->
  result w (controller_run w config name parameters timeout) = Normal tt /\
  trace w (controller_run w config name parameters timeout)
  = [Pprint (JStr "ERROR: Cannot run plans without Stomp configuration to track progress")].
Proof. intros H. py_go. rewrite H. py_go. split; reflexivity. Qed.

(** X6.  Parameters that [json.loads] rejects are not handled: the exception
    is raised before the [try], so a [JSONDecodeError] leaves the command
    although it is a [ValueError], and nothing has been printed or sent. *)
Theorem malformed_parameters_escape (w : World) (config : ApplicationConfig)
  (name : string) (parameters : option string) (timeout : option float)
  (sc : StompConfig) (msg : string) :
  stomp config = Some sc ->
  json_loads (py_or parameters "{}") = inl (JSONDecodeError msg) ->
  isinstance_ValueError (JSONDecodeError msg) = true /\
  result w (controller_run w config name parameters timeout)
  = Raised (JSONDecodeError msg) /\
  trace w (controller_run w config name parameters timeout) = [].
Proof.
  intros Hs Hj. py_go. rewrite Hs. py_go. rewrite Hj. py_go.
  repeat split; reflexivity.
Qed.

(** X7.  When [create_task] fails, what the user sees depends on the class
    of the exception: a validation error, a remote error and any other
    [ValueError] are printed by [run_plan], a [ConnectionError] is printed by
    [check_connection], and anything else leaves the command.  In every case
    the bus is never connected and no start command is sent. *)
Theorem registration_failure (w : World) (config : ApplicationConfig)
  (name : string) (parameters : option string) (timeout : option float)
  (sc : StompConfig) (v : json) (task : Task) (e : exn) :
  stomp config = Some sc ->
  json_loads (py_or parameters "{}") = inr v ->
  Task_init name v = inr task ->
  w_create_task w task = inl e ->
  trace w (controller_run w config name parameters timeout)
  = Call_create_task task ::
    match e with
    | ValidationError msg =>
        [Pprint (JStr (String.append
                         "failed to validate the task parameters, , error: " msg))]
    | BlueskyRemoteError msg =>
        [Pprint (JStr (String.append "server error with this message: " msg))]
    | ValueError _ | JSONDecodeError _ => [Pprint (JStr "task could not run")]
    | ConnectionError _ =>
        [Print "Failed to establish connection to FastAPI server."]
    | _ => []
    end /\
  result w (controller_run w config name parameters timeout)
  = match e with
    | ValidationError _ | BlueskyRemoteError _ | ValueError _
    | JSONDecodeError _ | ConnectionError _ => Normal tt
    | _ => Raised e
    end.
Proof.
  intros Hs Hj Ht Hc. py_go. rewrite Hs. py_go. rewrite Hj. py_go.
  rewrite Ht. py_go. rewrite Hc. py_go.
  destruct e; py_go; split; reflexivity.
Qed.

(** X8.  When the broker refuses the connection, the task stays registered
    but is never started: nothing is subscribed, no start command is sent, and
    the exception leaves [run_plan] (a [ConnectionError] is then printed by
    [check_connection]). *)
Theorem connection_refused (w : World) (config : ApplicationConfig)
  (name : string) (parameters : option string) (timeout : option float)
  (sc : StompConfig) (v : json) (task : Task) (task_id : string) (e : exn) :
  stomp config = Some sc ->
  json_loads (py_or parameters "{}") = inr v ->
  Task_init name v = inr task ->
  w_create_task w task = inr task_id ->
  w_connect w = inl e ->
  trace w (controller_run w config name parameters timeout)
  = [Call_create_task task; Bus_connect] ++
    (if isinstance_ConnectionError e
     then [Print "Failed to establish connection to FastAPI server."]
     else []) /\
  result w (controller_run w config name parameters timeout)
  = (if isinstance_ConnectionError e then Normal tt else Raised e).
Proof.
  intros Hs Hj Ht Hc Hn. py_go. rewrite Hs. py_go. rewrite Hj. py_go.
  rewrite Ht. py_go. rewrite Hc. py_go. rewrite Hn. py_go.
  destruct e; py_go; split; reflexivity.
Qed.

(** X9.  When the start command fails, the connection is closed again and
    the exception leaves [run_plan] whatever its class: the handlers of the
    [try] do not cover it, so a remote error or a [ValueError] is not printed;
    only a [ConnectionError] is, by [check_connection]. *)
Theorem start_failure (w : World) (config : ApplicationConfig)
  (name : string) (parameters : option string) (timeout : option float)
  (sc : StompConfig) (v : json) (task : Task) (task_id : string) (e : exn) :
  stomp config = Some sc ->
  json_loads (py_or parameters "{}") = inr v ->
  Task_init name v = inr task ->
  w_create_task w task = inr task_id ->
  w_connect w = inr tt ->
  w_update_worker_task w task_id = inl e ->
  trace w (controller_run w config name parameters timeout)
  = [Call_create_task task; Bus_connect; Bus_subscribe_to_topics task_id;
     Call_update_worker_task task_id; Bus_disconnect] ++
    (if isinstance_ConnectionError e
     then [Print "Failed to establish connection to FastAPI server."]
     else []) /\
  result w (controller_run w config name parameters timeout)
  = (if isinstance_ConnectionError e then Normal tt else Raised e).
Proof.
  intros Hs Hj Ht Hc Hn Hu. py_go. rewrite Hs. py_go. rewrite Hj. py_go.
  rewrite Ht. py_go. rewrite Hc. py_go. rewrite Hn. py_go. rewrite Hu. py_go.
  match goal with
  | |- context [bus_exit ?s] =>
      assert (Htr : tracking task_id s) by (split; reflexivity);
      destruct (bus_exit_tracking task_id s Htr) as (Hxr & Hxo & _);
      destruct (bus_exit s) as [s3 r3]
  end.
  cbn [fst snd out set_out set_client] in *. subst r3.
  destruct e; py_go; rewrite ?Hxo; split; reflexivity.
Qed.

End CliMore.

Section CliCommands.

Import Cli.

Context {L : Lib}.

Ltac py_go :=
  cbv beta iota zeta delta
    [run_plan controller_run controller_command body_of check_connection
     call try_except with_ rest bus_enter subscribe_to_topics
     subscribe_to_all_events wait_for_complete get_timed_out listen_to_events
     input get_plans get_devices get_state pause resume abort stop schema
     start_application bind ret lift raise py_return tell pprint print log
     start result trace isinstance_ConnectionError isinstance_ValueError];
  cbn [out client finished_event inbox set_out set_client set_finished_event
       set_inbox with_connected with_tracked with_listening with_timed_out
       connected tracked listening completion timed_out new_client app fst snd].

Lemma filter_report (e : WorkerEvent) : filter is_request (report e) = [].
Proof.
  assert (H : forall lv xs, filter is_request (map (Log lv) xs) = []).
  { intros lv xs. induction xs as [|x xs IH]; [reflexivity|exact IH]. }
  unfold report. destruct (errors e); [destruct (warnings e)|];
    cbn [filter is_request]; try reflexivity; apply H.
Qed.

(** X10.  A run of [controller run] sends at most two requests: the
    registration of the task first and then, possibly, the start command for
    the id the registration returned. *)
Theorem requests_of_a_run (w : World) (config : ApplicationConfig)
  (name : string) (parameters : option string) (timeout : option float) :
  filter is_request (trace w (controller_run w config name parameters timeout))
  = [] \/
  (exists task,
     filter is_request (trace w (controller_run w config name parameters timeout))
     = [Call_create_task task]) \/
  (exists task task_id,
     w_create_task w task = inr task_id /\
     filter is_request (trace w (controller_run w config name parameters timeout))
     = [Call_create_task task; Call_update_worker_task task_id]).
Proof.
  destruct (stomp config) as [sc|] eqn:Hs.
  2:{ left. py_go. rewrite Hs. py_go. reflexivity. }
  destruct (json_loads (py_or parameters "{}")) as [e|v] eqn:Hj.
  { left. py_go. rewrite Hs. py_go. rewrite Hj. py_go.
    destruct e; py_go; reflexivity. }
  destruct (Task_init name v) as [e|task] eqn:Ht.
  { left. py_go. rewrite Hs. py_go. rewrite Hj. py_go. rewrite Ht. py_go.
    destruct e; py_go; reflexivity. }
  right.
  destruct (w_create_task w task) as [e|task_id] eqn:Hc.
  { left. exists task. py_go. rewrite Hs. py_go. rewrite Hj. py_go. rewrite Ht.
    py_go. rewrite Hc. py_go. destruct e; py_go; reflexivity. }
  destruct (w_connect w) as [e|[]] eqn:Hn.
  { left. exists task. py_go. rewrite Hs. py_go. rewrite Hj. py_go. rewrite Ht.
    py_go. rewrite Hc. py_go. rewrite Hn. py_go. destruct e; py_go; reflexivity. }
  right. exists task, task_id. split; [exact Hc|].
  destruct (w_update_worker_task w task_id) as [e|updated] eqn:Hu.
  - py_go. rewrite Hs. py_go. rewrite Hj. py_go. rewrite Ht. py_go.
    rewrite Hc. py_go. rewrite Hn. py_go. rewrite Hu. py_go.
    match goal with
    | |- context [bus_exit ?s] =>
        assert (Htr : tracking task_id s) by (split; reflexivity);
        destruct (bus_exit_tracking task_id s Htr) as (Hxr & Hxo & _);
        destruct (bus_exit s) as [s3 r3]
    end.
    cbn [fst snd out set_out set_client] in *. subst r3.
    destruct e; py_go; rewrite ?Hxo; reflexivity.
  - destruct (run_after_start w config name parameters timeout sc v task task_id
                updated Hs Hj Ht Hc Hn Hu) as (s' & Hs' & Hend).
    unfold trace. rewrite Hs'.
    destruct (ending_of task_id (is_bounded timeout) (w_inbox w)) as [first| |msg|];
      destruct Hend as (_ & Ho & _); rewrite Ho; cbn [out waiting app filter is_request];
      rewrite ?filter_app, ?filter_report; reflexivity.
Qed.

(** X11.  The only task [controller run] ever submits is the one [Task]
    builds from the name on the command line and the parsed parameters. *)
Theorem submitted_task_is_the_one_built (w : World) (config : ApplicationConfig)
  (name : string) (parameters : option string) (timeout : option float)
  (task : Task) :
  In (Call_create_task task)
     (trace w (controller_run w config name parameters timeout)) ->
  exists v, json_loads (py_or parameters "{}") = inr v /\
            Task_init name v = inr task.
Proof. apply created_task_is_constructed. Qed.

(** X12.  With the bus client as the spec describes it: when the task is
    registered and started and a terminal event of the task arrives before the
    wait's bound, the command disconnects, reports the last terminal event of
    the task that was delivered while the connection was open (also one that
    came after the wait had ended), prints the answer to the start command, and
    ends normally. *)
Theorem completed_run_reports_last_delivered (w : World)
  (config : ApplicationConfig) (name : string) (parameters : option string)
  (timeout : option float) (sc : StompConfig) (v : json) (task : Task)
  (task_id : string) (updated : json) (first : WorkerEvent) :
  stomp config = Some sc ->
  json_loads (py_or parameters "{}") = inr v ->
  Task_init name v = inr task ->
  w_create_task w task = inr task_id ->
  w_connect w = inr tt ->
  w_update_worker_task w task_id = inr updated ->
  ending_of task_id (is_bounded timeout) (w_inbox w) = Completes first ->
  result w (controller_run w config name parameters timeout) = Normal tt /\
  trace w (controller_run w config name parameters timeout)
  = [Call_create_task task; Bus_connect; Bus_subscribe_to_topics task_id;
     Call_update_worker_task task_id; Bus_wait_for_complete timeout;
     Bus_disconnect]
    ++ report (last (terminal_events task_id (w_inbox w)) first)
    ++ [Pprint updated].
Proof.
  intros Hs Hj Ht Hc Hn Hu He.
  destruct (run_after_start w config name parameters timeout sc v task task_id
              updated Hs Hj Ht Hc Hn Hu) as (s' & Hs' & Hend).
  rewrite He in Hend. destruct Hend as (Hr & Ho & _).
  unfold trace. rewrite Hs'. split; [exact Hr|]. rewrite Ho. reflexivity.
Qed.

(** X13.  A function under [check_connection] never ends in a
    [ConnectionError]; and when the function itself does not raise one, the
    wrapper changes nothing but the returned value, which it drops. *)
Theorem check_connection_swallows_connection_errors (func : Py session unit)
  (s : session) :
  (forall msg, snd (check_connection func s) <> Raised (ConnectionError msg)) /\
  ((forall msg, snd (func s) <> Raised (ConnectionError msg)) ->
   check_connection func s = call func s).
Proof.
  unfold check_connection, call, try_except.
  destruct (func s) as [s' [[]| |e|]]; cbn [snd]; split; try discriminate;
    try reflexivity.
  - intros msg. destruct e; cbn; discriminate.
  - intros H. destruct e; cbn; try reflexivity. exfalso. apply (H msg). reflexivity.
Qed.

(** X14.  Each command that queries or steers the worker sends its one
    request and then prints the answer; when the server cannot be reached it
    prints the failure message instead; any other exception leaves the command
    after the request. *)
Theorem query_commands (w : World) (config : ApplicationConfig) (c : command)
  (request : action) (answer : exn + json) :
  exchange_of w c = Some (request, answer) ->
  trace w (controller_command w config c)
  = request ::
    match answer with
    | inr d => [Pprint d]
    | inl e =>
        if isinstance_ConnectionError e
        then [Print "Failed to establish connection to FastAPI server."]
        else []
    end /\
  result w (controller_command w config c)
  = match answer with
    | inr _ => Normal tt
    | inl e => if isinstance_ConnectionError e then Normal tt else Raised e
    end.
Proof.
  intros H.
  destruct c; cbn [exchange_of] in H; try discriminate H;
    injection H as <- <-; py_go;
    match goal with
    | |- context [match ?a with inl _ => _ | inr _ => _ end] =>
        destruct a as [e|d]; py_go; [destruct e; py_go|]; split; reflexivity
    end.
Qed.

(** X15.  Without a [stomp] section in the configuration, [controller listen]
    raises [RuntimeError] before it prints or connects, and
    [check_connection] lets that exception through. *)
Theorem listen_without_stomp (w : World) (config : ApplicationConfig) :
  stomp config = None ->
  result w (controller_command w config cmd_listen)
  = Raised (RuntimeError "Message bus needs to be configured") /\
  trace w (controller_command w config cmd_listen) = [].
Proof. intros H. py_go. rewrite H. py_go. split; reflexivity. Qed.

Lemma deliver_listening (i : bus_input) (s : session) :
  listening (client s) = Some cb_on_event ->
  tracked (client s) = None ->
  listening (client (deliver i s)) = Some cb_on_event /\
  tracked (client (deliver i s)) = None /\
  out (deliver i s)
  = out s ++ map (fun ev => Print (json_dumps (event_dict ev))) (events_of [i]).
Proof.
  intros Hl Ht. destruct s as [o d c ib]; destruct c as [cn tr li cp to].
  cbn in Hl, Ht. subst.
  destruct i as [ev| |msg];
    cbv [deliver notify invoke on_event print tell fst client listening tracked
         set_out out events_of map];
    rewrite ?app_nil_r; repeat split; try reflexivity.
  all: destruct ev; reflexivity.
Qed.

Lemma fold_deliver_listening (pending : list bus_input) :
  forall s : session,
    listening (client s) = Some cb_on_event ->
    tracked (client s) = None ->
    out (fold_left (fun acc i => deliver i acc) pending s)
    = out s ++ map (fun ev => Print (json_dumps (event_dict ev))) (events_of pending).
Proof.
  induction pending as [|i rest IH]; intros s Hl Ht; cbn [fold_left].
  - cbn [events_of map]. rewrite app_nil_r. reflexivity.
  - destruct (deliver_listening i s Hl Ht) as (Hl' & Ht' & Ho).
    rewrite (IH _ Hl' Ht'), Ho, <- app_assoc, <- map_app.
    f_equal. f_equal. destruct i; reflexivity.
Qed.

(** X16.  With the bus client as the spec describes it: [controller listen]
    announces the broker it subscribes to, connects, subscribes to all events
    and waits for a line of input; every event delivered while the connection
    is open, whatever its kind, is printed as [json.dumps] of its [dict()], in
    the order of delivery; then the connection is closed. *)
Theorem listen_prints_every_event (w : World) (config : ApplicationConfig)
  (sc : StompConfig) (line : string) :
  stomp config = Some sc ->
  w_connect w = inr tt ->
  w_input w = inr line ->
  result w (controller_command w config cmd_listen) = Normal tt /\
  trace w (controller_command w config cmd_listen)
  = [Print (String.append "Subscribing to all bluesky events from "
              (String.append (host sc) (String.append ":" (str_port (port sc)))));
     Bus_connect; Bus_subscribe_to_all_events; Input "Press enter to exit"]
    ++ map (fun ev => Print (json_dumps (event_dict ev))) (events_of (w_inbox w))
    ++ [Bus_disconnect].
Proof.
  intros Hs Hn Hi. py_go. rewrite Hs. py_go. rewrite Hn. py_go. rewrite Hi. py_go.
  unfold bus_exit, drain. py_go.
  rewrite fold_deliver_listening by reflexivity.
  cbn [out app]. rewrite <- app_assoc. split; reflexivity.
Qed.

End CliCommands.

Section CliStartup.

Import Cli.

Context {L : Lib}.

Lemma for_each_use_values (w : World) (paths : list string) :
  (forall p, In p paths ->
             w_exists w p = true /\ w_use_values_from_yaml w p = inr tt) ->
  forall s : session,
    for_each paths
      (fun path =>
         if w_exists w path
         then bind (tell (Config_use_values_from_yaml path))
                (fun _ => lift (w_use_values_from_yaml w path))
         else raise (FileNotFoundError (String.append "Cannot find file: " path))) s
    = (set_out (out s ++ map Config_use_values_from_yaml paths) s, Normal tt).
Proof.
  induction paths as [|p paths IH]; intros H s; cbn [for_each map].
  - rewrite app_nil_r. destruct s; reflexivity.
  - destruct (H p (or_introl eq_refl)) as [He Hu].
    unfold bind at 1. rewrite He. unfold bind at 1, tell. rewrite Hu.
    cbn [lift ret]. rewrite IH by (intros q Hq; apply H; right; exact Hq).
    cbn [out set_out]. rewrite <- app_assoc. reflexivity.
Qed.

(** X17.  When every configuration file given to [main] exists and is
    accepted, the files are applied in the order given, then the configuration
    is loaded once and the logging level is taken from it; a reminder is
    printed when no subcommand was invoked.  The loaded configuration is what
    the commands get. *)
Theorem main_applies_every_file (w : World) (paths : list string)
  (invoked_subcommand : option string) (loaded : ApplicationConfig) :
  (forall p, In p paths ->
             w_exists w p = true /\ w_use_values_from_yaml w p = inr tt) ->
  w_load w = inr loaded ->
  snd (main w (Some (inr paths)) invoked_subcommand (start w)) = Normal loaded /\
  out (fst (main w (Some (inr paths)) invoked_subcommand (start w)))
  = map Config_use_values_from_yaml paths
    ++ [Config_load; Logging_basicConfig (logging_level loaded)]
    ++ match invoked_subcommand with
       | None => [Print "Please invoke subcommand!"]
       | Some _ => []
       end.
Proof.
  intros H Hl.
  assert (E : main w (Some (inr paths)) invoked_subcommand (start w)
              = (set_out (map Config_use_values_from_yaml paths
                          ++ [Config_load; Logging_basicConfig (logging_level loaded)]
                          ++ match invoked_subcommand with
                             | None => [Print "Please invoke subcommand!"]
                             | Some _ => []
                             end) (start w), Normal loaded)).
  { unfold main. unfold bind at 1.
    rewrite (for_each_use_values w paths H).
    unfold print. unfold bind, tell. rewrite Hl. cbn [lift ret].
    destruct invoked_subcommand; cbn [fst snd out set_out start app ret];
      rewrite <- ?app_assoc; reflexivity. }
  rewrite E. split; reflexivity.
Qed.

(** X18.  [main] stops at the first configuration file that does not exist:
    it raises [FileNotFoundError] naming that file; the files before it have
    been applied, the files after it have not, and the configuration is never
    loaded. *)
Theorem main_stops_at_missing_file (w : World) (before after : list string)
  (missing : string) (invoked_subcommand : option string) :
  (forall p, In p before ->
             w_exists w p = true /\ w_use_values_from_yaml w p = inr tt) ->
  w_exists w missing = false ->
  snd (main w (Some (inr (before ++ missing :: after))) invoked_subcommand (start w))
  = Raised (FileNotFoundError (String.append "Cannot find file: " missing)) /\
  out (fst (main w (Some (inr (before ++ missing :: after))) invoked_subcommand
              (start w)))
  = map Config_use_values_from_yaml before.
Proof.
  intros H Hm.
  assert (E : forall s : session,
             for_each (before ++ missing :: after)
               (fun path =>
                  if w_exists w path
                  then bind (tell (Config_use_values_from_yaml path))
                         (fun _ => lift (w_use_values_from_yaml w path))
                  else raise (FileNotFoundError
                                (String.append "Cannot find file: " path))) s
             = (set_out (out s ++ map Config_use_values_from_yaml before) s,
                Raised (FileNotFoundError
                          (String.append "Cannot find file: " missing)))).
  { clear invoked_subcommand. induction before as [|p before IH]; intros s.
    - cbn [app for_each map]. unfold bind. rewrite Hm. unfold raise.
      rewrite app_nil_r. destruct s; reflexivity.
    - cbn [app for_each map].
      destruct (H p (or_introl eq_refl)) as [He Hu].
      unfold bind at 1. rewrite He. unfold bind at 1, tell. rewrite Hu.
      cbn [lift ret]. rewrite IH by (intros q Hq; apply H; right; exact Hq).
      cbn [out set_out]. rewrite <- app_assoc. reflexivity. }
  assert (E2 : main w (Some (inr (before ++ missing :: after))) invoked_subcommand
                 (start w)
               = (set_out (map Config_use_values_from_yaml before) (start w),
                  Raised (FileNotFoundError
                            (String.append "Cannot find file: " missing)))).
  { unfold main. unfold bind at 1. rewrite E. reflexivity. }
  rewrite E2. split; reflexivity.
Qed.

End CliStartup.

(** ** More on the bridge *)

Section ServiceMore.

Import Service.

Context {L : Lib}.

Lemma isinstance_In (device : Device) (protocol : string) :
  isinstance device protocol = true <-> In protocol (implements device).
Proof.
  unfold isinstance. rewrite existsb_exists. split.
  - intros (x & Hx & He). apply String.eqb_eq in He. subst. exact Hx.
  - intros H. exists protocol. split; [exact H|apply String.eqb_refl].
Qed.

(** X19.  The protocols listed for a device are exactly those of
    [BLUESKY_PROTOCOLS] that the device satisfies: a protocol the device
    satisfies is left out when it is not in that tuple, and the list is never
    longer than the tuple. *)
Theorem protocol_names_are_the_known_ones (device : Device) (protocol : string) :
  (In protocol (_protocol_names device) <->
   In protocol BLUESKY_PROTOCOLS /\ In protocol (implements device)) /\
  length (_protocol_names device) <= length BLUESKY_PROTOCOLS.
Proof.
  unfold _protocol_names. split; [split|].
  - intros H. apply filter_In in H. destruct H as [H1 H2].
    split; [exact H1|apply isinstance_In, H2].
  - intros [H1 H2]. apply filter_In. split; [exact H1|apply isinstance_In, H2].
  - induction BLUESKY_PROTOCOLS as [|p ps IH]; [reflexivity|].
    cbn [filter]. destruct (isinstance device p); cbn [length]; lia.
Qed.

End ServiceMore.

Section ServiceServing.

Import Service.

Context {L : Lib}.

(** X20.  A device is shown under its own name when it is [Readable] or
    [Flyable], and as ["UNKNOWN"] otherwise, whatever other protocols it
    satisfies. *)
Theorem unknown_unless_readable_or_flyable (device : Device) :
  (In "Readable" (implements device) \/ In "Flyable" (implements device) ->
   _display_device device
   = JObj [("name", JStr (device_name device));
           ("protocols", JArr (map JStr (_protocol_names device)))]) /\
  (~ In "Readable" (implements device) ->
   ~ In "Flyable" (implements device) ->
   _display_device device
   = JObj [("name", JStr "UNKNOWN");
           ("protocols", JArr (map JStr (_protocol_names device)))]).
Proof.
  unfold _display_device. split.
  - intros [H|H]; apply isinstance_In in H; rewrite H; [reflexivity|].
    rewrite orb_true_r. reflexivity.
  - intros H1 H2.
    destruct (isinstance device "Readable") eqn:E1;
      [exfalso; apply H1, isinstance_In, E1|].
    destruct (isinstance device "Flyable") eqn:E2;
      [exfalso; apply H2, isinstance_In, E2|].
    reflexivity.
Qed.

(** X21.  The plans and devices queries read the registry as it is when
    they are called and change nothing but the list of sent messages: they
    submit nothing to the worker, draw no id, and do not look at the body of
    the message. *)
Theorem queries_leave_the_worker_alone (h : handler) (mc : MessageContext)
  (body other : json) (s : state) :
  h <> h_on_run_request ->
  apply_handler h mc body s = apply_handler h mc other s /\
  ctx (fst (apply_handler h mc body s)) = ctx s /\
  clock (fst (apply_handler h mc body s)) = clock s /\
  submitted (fst (apply_handler h mc body s)) = submitted s /\
  subscriptions (fst (apply_handler h mc body s)) = subscriptions s.
Proof.
  intros H. destruct h; [congruence| |];
    cbn [apply_handler]; unfold _get_plans, _get_devices, reply, call, bind,
      get_ctx, send, raise;
    destruct (reply_destination mc); repeat split; reflexivity.
Qed.

(** X22.  A run-request without a reply destination is not dropped: the id
    is drawn and the task is handed to the worker before the assertion fails,
    so the worker runs a task whose id nobody was told. *)
Theorem orphan_run_request_is_still_submitted (mc : MessageContext)
  (task : json) (s : state) :
  reply_destination mc = None ->
  snd (_on_run_request mc task s) = Raised AssertionError /\
  submitted (fst (_on_run_request mc task s))
  = submitted s ++ [(uuid1 (clock s), task)] /\
  clock (fst (_on_run_request mc task s)) = S (clock s) /\
  sent (fst (_on_run_request mc task s)) = sent s.
Proof.
  intros H. unfold _on_run_request, reply, call, bind, new_uuid, submit_task, raise.
  rewrite H. repeat split; reflexivity.
Qed.

Lemma handler_frame (h : handler) (mc : MessageContext) (body : json) (s : state) :
  subscriptions (fst (apply_handler h mc body s)) = subscriptions s /\
  listeners (fst (apply_handler h mc body s)) = listeners s /\
  (map fst (submitted s) = issued s ->
   map fst (submitted (fst (apply_handler h mc body s)))
   = issued (fst (apply_handler h mc body s))).
Proof.
  destruct h; cbn [apply_handler];
    unfold _on_run_request, _get_plans, _get_devices, reply, call, bind,
      new_uuid, submit_task, get_ctx, send, raise, issued;
    destruct (reply_destination mc); cbn [fst subscriptions listeners submitted clock];
    repeat split; try (intros H; exact H);
    intros H; rewrite map_app, seq_S, map_app, H; reflexivity.
Qed.

Lemma call_all_frame (hs : list handler) (mc : MessageContext) (body : json) :
  forall s : state,
    subscriptions (fst (call_all hs mc body s)) = subscriptions s /\
    listeners (fst (call_all hs mc body s)) = listeners s /\
    (map fst (submitted s) = issued s ->
     map fst (submitted (fst (call_all hs mc body s)))
     = issued (fst (call_all hs mc body s))).
Proof.
  induction hs as [|h hs IH]; intros s; cbn [call_all].
  - repeat split. intros H; exact H.
  - destruct (handler_frame h mc body s) as (H1 & H2 & H3).
    destruct (apply_handler h mc body s) as [s1 r]. cbn [fst] in *.
    destruct (IH s1) as (I1 & I2 & I3).
    destruct (call_all hs mc body s1) as [s2 rs]. cbn [fst] in *.
    repeat split; try congruence. intros H. apply I3, H3, H.
Qed.

Lemma serve_frame (ms : list inbound) :
  forall s : state,
    subscriptions (serve ms s) = subscriptions s /\
    listeners (serve ms s) = listeners s /\
    (map fst (submitted s) = issued s ->
     map fst (submitted (serve ms s)) = issued (serve ms s)).
Proof.
  induction ms as [|m ms IH]; intros s; cbn [serve].
  - repeat split. intros H; exact H.
  - unfold on_message.
    destruct (call_all_frame (handlers_for (topic m) s) (context m) (payload m) s)
      as (H1 & H2 & H3).
    destruct (IH (fst (call_all (handlers_for (topic m) s) (context m) (payload m) s)))
      as (I1 & I2 & I3).
    repeat split; try congruence. intros H. apply I3, H3, H.
Qed.

Lemma handlers_for_registered (topic : string) (s : state) :
  subscriptions s
  = [("worker.run", h_on_run_request); ("worker.plans", h_get_plans);
     ("worker.devices", h_get_plans)] ->
  handlers_for topic s
  = (if String.eqb "worker.run" topic then [h_on_run_request] else [])
    ++ (if String.eqb "worker.plans" topic then [h_get_plans] else [])
    ++ (if String.eqb "worker.devices" topic then [h_get_plans] else []).
Proof.
  intros H. unfold handlers_for. rewrite H.
  cbv beta iota delta [filter fst].
  destruct (String.eqb "worker.run" topic);
    destruct (String.eqb "worker.plans" topic);
    destruct (String.eqb "worker.devices" topic); reflexivity.
Qed.

Lemma serving_subscriptions (c : BlueskyContext) (ms : list inbound) :
  subscriptions (serve ms (serving c))
  = [("worker.run", h_on_run_request); ("worker.plans", h_get_plans);
     ("worker.devices", h_get_plans)].
Proof.
  destruct (serve_frame ms (serving c)) as (Hs & _). rewrite Hs. reflexivity.
Qed.

(** X23.  Whatever messages the bridge has served, [_get_devices] is
    registered for no topic, and a message on [worker.devices] is handled
    exactly as the same message on [worker.plans]. *)
Theorem get_devices_is_never_called (c : BlueskyContext) (ms : list inbound)
  (topic : string) (mc : MessageContext) (body : json) :
  ~ In h_get_devices (handlers_for topic (serve ms (serving c))) /\
  on_message "worker.devices" mc body (serve ms (serving c))
  = on_message "worker.plans" mc body (serve ms (serving c)).
Proof.
  pose proof (serving_subscriptions c ms) as Hs.
  split.
  - rewrite (handlers_for_registered topic _ Hs).
    destruct (String.eqb "worker.run" topic);
      destruct (String.eqb "worker.plans" topic);
      destruct (String.eqb "worker.devices" topic);
      cbn [app In]; intuition discriminate.
  - unfold on_message.
    assert (E1 : handlers_for "worker.devices" (serve ms (serving c)) = [h_get_plans]).
    { rewrite (handlers_for_registered _ _ Hs). vm_compute. reflexivity. }
    assert (E2 : handlers_for "worker.plans" (serve ms (serving c)) = [h_get_plans]).
    { rewrite (handlers_for_registered _ _ Hs). vm_compute. reflexivity. }
    rewrite E1, E2. reflexivity.
Qed.

(** X24.  A message on any topic other than the three the bridge subscribes
    to calls no handler and leaves the bridge as it was. *)
Theorem other_topics_are_ignored (c : BlueskyContext) (ms : list inbound)
  (topic : string) (mc : MessageContext) (body : json) :
  topic <> "worker.run" ->
  topic <> "worker.plans" ->
  topic <> "worker.devices" ->
  on_message topic mc body (serve ms (serving c)) = (serve ms (serving c), []).
Proof.
  intros H1 H2 H3.
  pose proof (serving_subscriptions c ms) as Hs.
  unfold on_message. rewrite (handlers_for_registered topic _ Hs).
  destruct (String.eqb_spec "worker.run" topic) as [E|_]; [congruence|].
  destruct (String.eqb_spec "worker.plans" topic) as [E|_]; [congruence|].
  destruct (String.eqb_spec "worker.devices" topic) as [E|_]; [congruence|].
  reflexivity.
Qed.

(** X25.  [uuid1] never giving the same text twice, the ids under which
    tasks were handed to the worker are pairwise distinct, whatever messages
    the bridge has served since it started. *)
Theorem task_ids_never_repeat (c : BlueskyContext) (ms : list inbound) :
  (forall m n, uuid1 m = uuid1 n -> m = n) ->
  NoDup (map fst (submitted (serve ms (serving c)))).
Proof.
  intros Hinj.
  destruct (serve_frame ms (serving c)) as (_ & _ & H).
  rewrite H by reflexivity. unfold issued.
  apply Finite.Injective_map_NoDup; [exact Hinj|apply seq_NoDup].
Qed.

Lemma relay_all_listeners (rs : list relay) (ev : json) :
  forall s : state, listeners (relay_all rs ev s) = listeners s.
Proof.
  induction rs as [|r rs IH]; intros s; cbn [relay_all]; [reflexivity|].
  rewrite IH. destruct r; reflexivity.
Qed.

Lemma publish_sent (st : stream) (evs : list json) :
  forall s : state,
    relays_for st s
    = [match st with
       | worker_events => r_on_worker_event
       | task_events => r_on_task_event
       | data_events => r_on_data_event
       end] ->
    sent (publish st evs s) = sent s ++ map (fun ev => (topic_of st, ev)) evs /\
    submitted (publish st evs s) = submitted s /\
    clock (publish st evs s) = clock s.
Proof.
  induction evs as [|ev evs IH]; intros s Hr; cbn [publish map].
  - rewrite app_nil_r. repeat split.
  - assert (Hr' : relays_for st (on_event st ev s) = relays_for st s).
    { unfold relays_for, on_event. rewrite relay_all_listeners. reflexivity. }
    rewrite Hr in Hr'. destruct (IH _ Hr') as (I1 & I2 & I3).
    rewrite I1, I2, I3. unfold on_event. rewrite Hr.
    destruct st; cbn [relay_all apply_relay _on_worker_event _on_task_event
                      _on_data_event send fst sent submitted clock topic_of];
      rewrite <- app_assoc; repeat split; reflexivity.
Qed.

(** X26.  Every event the worker publishes on one of its three streams is
    sent, unchanged and in the order of publication, to the topic of that
    stream and nowhere else; republishing submits nothing and draws no id. *)
Theorem events_are_republished_in_order (c : BlueskyContext)
  (ms : list inbound) (st : stream) (evs : list json) :
  sent (publish st evs (serve ms (serving c)))
  = sent (serve ms (serving c)) ++ map (fun ev => (topic_of st, ev)) evs /\
  submitted (publish st evs (serve ms (serving c)))
  = submitted (serve ms (serving c)) /\
  clock (publish st evs (serve ms (serving c))) = clock (serve ms (serving c)).
Proof.
  apply publish_sent.
  destruct (serve_frame ms (serving c)) as (_ & Hl & _).
  unfold relays_for. rewrite Hl. destruct st; reflexivity.
Qed.

End ServiceServing.

(** ** The example application *)

Section ExampleFacts.

Import Example.

Context {L : Lib}.

(** X27.  [run_plan] of the example application asks the controller to run
    the plan with the name and parameters it was given; when the controller
    raises, the exception leaves the endpoint and no id is drawn; otherwise
    ([uuid1] never giving the same value twice) the endpoint returns an id
    that was not returned before. *)
Theorem example_run_plan (c : Controller) (name : string) (params : json)
  (s : state) :
  (forall m n, uuid1 m = uuid1 n -> m = n) ->
  asked (fst (run_plan c name params s)) = asked s ++ [(name, params)] /\
  match c_run_plan c name params with
  | inl e =>
      snd (run_plan c name params s) = Raised e /\
      issued (fst (run_plan c name params s)) = issued s
  | inr _ =>
      exists id,
        snd (run_plan c name params s) = Normal id /\
        ~ In id (issued s) /\
        issued (fst (run_plan c name params s)) = issued s ++ [id]
  end.
Proof.
  intros Hinj. unfold run_plan, bind, ask, new_uuid, issued.
  destruct (c_run_plan c name params) as [e|[]]; cbn [lift raise ret fst snd asked clock].
  - repeat split; reflexivity.
  - split; [reflexivity|]. exists (uuid1 (clock s)). repeat split.
    + intros Hin. apply in_map_iff in Hin. destruct Hin as (n & Hn & Hin).
      apply Hinj in Hn. subst n. apply in_seq in Hin. lia.
    + rewrite seq_S, map_app. reflexivity.
Qed.

(** X28.  [get_plans] of the example application describes the plans the
    controller lists, one descriptor per plan in the same order, each with the
    plan's name and the schema of its model; when the controller raises, so
    does the endpoint. *)
Theorem example_get_plans (c : Controller) (s : state) :
  match c_get_plans c with
  | inl e => get_plans c s = (s, Raised e)
  | inr found =>
      exists listed,
        get_plans c s = (s, Normal listed) /\
        length listed = length found /\
        forall i plan,
          nth_error found i = Some plan ->
          nth_error listed i
          = Some (JObj [("name", JStr (plan_name plan));
                        ("schema", deserialization_schema (plan_model plan))])
  end.
Proof.
  unfold get_plans, bind. destruct (c_get_plans c) as [e|found]; [reflexivity|].
  exists (map display_plan found). cbn [lift ret].
  split; [reflexivity|]. split; [apply length_map|].
  intros i plan H. rewrite nth_error_map, H. reflexivity.
Qed.

End ExampleFacts.

(** ** More worked runs *)

Section MoreCliRuns.

Import Cli Demo.

#[local] Existing Instance Demo.lib.

Lemma store_then_pop_witness :
  bind (store_finished_event passed) (fun _ => deque_pop) (start (world []))
  = (start (world []), Normal passed).
Proof. apply (store_then_pop passed (start (world []))). reflexivity. Defined.

Lemma warnings_are_reported_witness :
  process_event_after_finished warned (start (world []))
  = (set_out (out (start (world []))
              ++ Log INFO (String.append "Passed with warnings: " nl)
                 :: map (Log WARN) (warnings warned))
       (start (world [])), Normal tt) /\
  ~ In (Log INFO "Plan passed")
       (Log INFO (String.append "Passed with warnings: " nl)
          :: map (Log WARN) (warnings warned)).
Proof.
  apply (warnings_are_reported warned (start (world []))).
  - reflexivity.
  - vm_compute. discriminate.
Defined.

(** [running] is not terminal and is reported as ["Plan passed"] all the
    same. *)
Lemma report_ignores_state_and_task_witness :
  process_event_after_finished running (start (world []))
  = process_event_after_finished passed (start (world [])).
Proof.
  apply (report_ignores_state_and_task running passed (start (world [])));
    reflexivity.
Defined.

Lemma run_without_stomp_witness :
  result (world []) (controller_run (world []) no_stomp "sleep" None None)
  = Normal tt /\
  trace (world []) (controller_run (world []) no_stomp "sleep" None None)
  = [Pprint (JStr "ERROR: Cannot run plans without Stomp configuration to track progress")].
Proof.
  apply (run_without_stomp (world []) no_stomp "sleep" None None). reflexivity.
Defined.

Lemma malformed_parameters_escape_witness :
  isinstance_ValueError (JSONDecodeError "Expecting value") = true /\
  result (world []) (controller_run (world []) config "sleep" (Some "{") None)
  = Raised (JSONDecodeError "Expecting value") /\
  trace (world []) (controller_run (world []) config "sleep" (Some "{") None) = [].
Proof.
  apply (malformed_parameters_escape (world []) config "sleep" (Some "{") None
           {| host := "localhost"; port := 61613%N |} "Expecting value");
    reflexivity.
Defined.

Lemma registration_failure_witness :
  result (world_with [] (inl (BlueskyRemoteError "no such plan")) (inr tt)
            (inr accepted) [])
    (controller_run
       (world_with [] (inl (BlueskyRemoteError "no such plan")) (inr tt)
          (inr accepted) [])
       config "sleep" None None)
  = Normal tt.
Proof.
  apply (registration_failure
           (world_with [] (inl (BlueskyRemoteError "no such plan")) (inr tt)
              (inr accepted) [])
           config "sleep" None None
           {| host := "localhost"; port := 61613%N |} (JObj []) sleep
           (BlueskyRemoteError "no such plan"));
    reflexivity.
Defined.

Lemma connection_refused_witness :
  result (world_with [] (inr "t1") (inl (OtherError "ConnectFailedException" ""))
            (inr accepted) [])
    (controller_run
       (world_with [] (inr "t1") (inl (OtherError "ConnectFailedException" ""))
          (inr accepted) [])
       config "sleep" None None)
  = Raised (OtherError "ConnectFailedException" "").
Proof.
  apply (connection_refused
           (world_with [] (inr "t1") (inl (OtherError "ConnectFailedException" ""))
              (inr accepted) [])
           config "sleep" None None
           {| host := "localhost"; port := 61613%N |} (JObj []) sleep "t1"
           (OtherError "ConnectFailedException" ""));
    reflexivity.
Defined.

Lemma start_failure_witness :
  result (world_with [] (inr "t1") (inr tt)
            (inl (BlueskyRemoteError "worker is busy")) [])
    (controller_run
       (world_with [] (inr "t1") (inr tt)
          (inl (BlueskyRemoteError "worker is busy")) [])
       config "sleep" None None)
  = Raised (BlueskyRemoteError "worker is busy").
Proof.
  apply (start_failure
           (world_with [] (inr "t1") (inr tt)
              (inl (BlueskyRemoteError "worker is busy")) [])
           config "sleep" None None
           {| host := "localhost"; port := 61613%N |} (JObj []) sleep "t1"
           (BlueskyRemoteError "worker is busy"));
    reflexivity.
Defined.

Lemma submitted_task_is_the_one_built_witness :
  exists v, json_loads (py_or None "{}") = inr v /\
            Task_init "sleep" v = inr sleep.
Proof.
  apply (submitted_task_is_the_one_built (world [Elapse]) config "sleep" None
           (Some five) sleep).
  left. reflexivity.
Defined.

(** [failed] arrives after the wait has ended with [passed], and is the
    event reported. *)
Lemma completed_run_reports_last_delivered_witness :
  result (world [Deliver (Worker passed); Deliver (Worker failed)])
    (controller_run (world [Deliver (Worker passed); Deliver (Worker failed)])
       config "sleep" None (Some five))
  = Normal tt /\
  trace (world [Deliver (Worker passed); Deliver (Worker failed)])
    (controller_run (world [Deliver (Worker passed); Deliver (Worker failed)])
       config "sleep" None (Some five))
  = [Call_create_task sleep; Bus_connect; Bus_subscribe_to_topics "t1";
     Call_update_worker_task "t1"; Bus_wait_for_complete (Some five);
     Bus_disconnect]
    ++ report (last (terminal_events "t1"
                       [Deliver (Worker passed); Deliver (Worker failed)]) passed)
    ++ [Pprint accepted].
Proof.
  apply (completed_run_reports_last_delivered
           (world [Deliver (Worker passed); Deliver (Worker failed)])
           config "sleep" None (Some five)
           {| host := "localhost"; port := 61613%N |} (JObj []) sleep "t1"
           accepted passed);
    reflexivity.
Defined.

Lemma query_commands_witness :
  trace (world_with [] (inr "t1") (inr tt) (inr accepted) [])
    (controller_command (world_with [] (inr "t1") (inr tt) (inr accepted) [])
       config cmd_plans)
  = [Call_get_plans;
     Print "Failed to establish connection to FastAPI server."] /\
  result (world_with [] (inr "t1") (inr tt) (inr accepted) [])
    (controller_command (world_with [] (inr "t1") (inr tt) (inr accepted) [])
       config cmd_plans)
  = Normal tt.
Proof.
  apply (query_commands (world_with [] (inr "t1") (inr tt) (inr accepted) [])
           config cmd_plans Call_get_plans
           (inl (ConnectionError "connection refused"))).
  reflexivity.
Defined.

Lemma listen_without_stomp_witness :
  result (world []) (controller_command (world []) no_stomp cmd_listen)
  = Raised (RuntimeError "Message bus needs to be configured") /\
  trace (world []) (controller_command (world []) no_stomp cmd_listen) = [].
Proof.
  apply (listen_without_stomp (world []) no_stomp). reflexivity.
Defined.

Lemma listen_prints_every_event_witness :
  result (world [Deliver (Worker running); Elapse; Deliver progress])
    (controller_command (world [Deliver (Worker running); Elapse; Deliver progress])
       config cmd_listen)
  = Normal tt /\
  trace (world [Deliver (Worker running); Elapse; Deliver progress])
    (controller_command (world [Deliver (Worker running); Elapse; Deliver progress])
       config cmd_listen)
  = [Print (String.append "Subscribing to all bluesky events from "
              (String.append "localhost" (String.append ":" (str_port 61613%N))));
     Bus_connect; Bus_subscribe_to_all_events; Input "Press enter to exit"]
    ++ map (fun ev => Print (json_dumps (event_dict ev)))
         (events_of [Deliver (Worker running); Elapse; Deliver progress])
    ++ [Bus_disconnect].
Proof.
  apply (listen_prints_every_event
           (world [Deliver (Worker running); Elapse; Deliver progress]) config
           {| host := "localhost"; port := 61613%N |} "");
    reflexivity.
Defined.

Lemma main_applies_every_file_witness :
  snd (main (world []) (Some (inr ["base.yaml"; "site.yaml"])) None (start (world [])))
  = Normal config /\
  out (fst (main (world []) (Some (inr ["base.yaml"; "site.yaml"])) None
              (start (world []))))
  = map Config_use_values_from_yaml ["base.yaml"; "site.yaml"]
    ++ [Config_load; Logging_basicConfig (logging_level config)]
    ++ [Print "Please invoke subcommand!"].
Proof.
  apply (main_applies_every_file (world []) ["base.yaml"; "site.yaml"] None config).
  - intros p _. split; reflexivity.
  - reflexivity.
Defined.

Lemma main_stops_at_missing_file_witness :
  snd (main (world_with ["site.yaml"] (inr "t1") (inr tt) (inr accepted) [])
         (Some (inr (["base.yaml"] ++ "site.yaml" :: ["late.yaml"])))
         (Some "controller")
         (start (world_with ["site.yaml"] (inr "t1") (inr tt) (inr accepted) [])))
  = Raised (FileNotFoundError (String.append "Cannot find file: " "site.yaml")) /\
  out (fst (main (world_with ["site.yaml"] (inr "t1") (inr tt) (inr accepted) [])
              (Some (inr (["base.yaml"] ++ "site.yaml" :: ["late.yaml"])))
              (Some "controller")
              (start (world_with ["site.yaml"] (inr "t1") (inr tt) (inr accepted) []))))
  = map Config_use_values_from_yaml ["base.yaml"].
Proof.
  apply (main_stops_at_missing_file
           (world_with ["site.yaml"] (inr "t1") (inr tt) (inr accepted) [])
           ["base.yaml"] ["late.yaml"] "site.yaml" (Some "controller")).
  - intros p [<-|[]]. split; reflexivity.
  - reflexivity.
Defined.

End MoreCliRuns.

Section MoreServiceRuns.

Import Service DemoService.

#[local] Existing Instance DemoService.lib.

Lemma queries_leave_the_worker_alone_witness :
  apply_handler h_get_devices query (JStr "") (serving registry)
  = apply_handler h_get_devices query sleep_task (serving registry) /\
  ctx (fst (apply_handler h_get_devices query (JStr "") (serving registry)))
  = ctx (serving registry) /\
  clock (fst (apply_handler h_get_devices query (JStr "") (serving registry)))
  = clock (serving registry) /\
  submitted (fst (apply_handler h_get_devices query (JStr "") (serving registry)))
  = submitted (serving registry) /\
  subscriptions (fst (apply_handler h_get_devices query (JStr "") (serving registry)))
  = subscriptions (serving registry).
Proof.
  apply (queries_leave_the_worker_alone h_get_devices query (JStr "") sleep_task
           (serving registry)).
  discriminate.
Defined.

Lemma orphan_run_request_is_still_submitted_witness :
  snd (_on_run_request orphan sleep_task (serving registry))
  = Raised AssertionError /\
  submitted (fst (_on_run_request orphan sleep_task (serving registry)))
  = submitted (serving registry) ++ [(uuid1 (clock (serving registry)), sleep_task)] /\
  clock (fst (_on_run_request orphan sleep_task (serving registry)))
  = S (clock (serving registry)) /\
  sent (fst (_on_run_request orphan sleep_task (serving registry)))
  = sent (serving registry).
Proof.
  apply (orphan_run_request_is_still_submitted orphan sleep_task (serving registry)).
  reflexivity.
Defined.

Lemma other_topics_are_ignored_witness :
  on_message "worker.event" query (JStr "") (serve [run_request] (serving registry))
  = (serve [run_request] (serving registry), []).
Proof.
  apply (other_topics_are_ignored registry [run_request] "worker.event" query
           (JStr ""));
    discriminate.
Defined.

Lemma task_ids_never_repeat_witness :
  NoDup (map fst (submitted (serve [run_request; plans_query; run_request]
                               (serving registry)))).
Proof.
  apply (task_ids_never_repeat registry [run_request; plans_query; run_request]).
  exact uuid_of_injective.
Defined.

End MoreServiceRuns.

Section ExampleRuns.

Import Example DemoExample.

#[local] Existing Instance DemoExample.lib.

Lemma example_run_plan_witness :
  asked (fst (run_plan controller "sleep" (JObj []) idle))
  = asked idle ++ [("sleep", JObj [])] /\
  match c_run_plan controller "sleep" (JObj []) with
  | inl e =>
      snd (run_plan controller "sleep" (JObj []) idle) = Raised e /\
      issued (fst (run_plan controller "sleep" (JObj []) idle)) = issued idle
  | inr _ =>
      exists id,
        snd (run_plan controller "sleep" (JObj []) idle) = Normal id /\
        ~ In id (issued idle) /\
        issued (fst (run_plan controller "sleep" (JObj []) idle))
        = issued idle ++ [id]
  end.
Proof.
  apply (example_run_plan controller "sleep" (JObj []) idle).
  exact uuid_of_injective.
Defined.

End ExampleRuns.
